(** * ntrv/webhooks, package [github]: verification and dispatch pipeline

    A shallow embedding of [src/github/event.go]: the event vocabulary,
    [getGitHubEvent], [verifySignature], [readPayload], [getGitHubHandler],
    [ParsePayload] and [runProcessPayloadFunc], together with the Go
    library functions they call ([crypto/sha1], [crypto/hmac],
    [crypto/subtle], [encoding/hex], the syntax check of [encoding/json]
    and [net/http]'s header lookup). *)

From Stdlib Require Import ZArith Lia Strings.Byte String Ascii List.
From stdpp Require Import base tactics option list strings gmap finite vector.
Import ListNotations.

(** A Go [[]byte]. *)
Abbreviation bytes := (list byte).

Definition Z_of_byte (b : byte) : Z := Z.of_N (Byte.to_N b).

Definition byte_of_Z (z : Z) : byte :=
  match Byte.of_N (Z.to_N (Z.land z 255)) with
  | Some b => b
  | None => x00
  end.

#[global] Instance byte_eq_dec : EqDecision byte := Byte.byte_eq_dec.

(** The 256 values of a byte. *)
Definition all_bytes : list byte := (fun n => byte_of_Z (Z.of_nat n)) <$> seq 0 256.

(** The first [n] bytes of a list, padded with zeros, as a vector. *)
Fixpoint take_vec (n : nat) (l : bytes) : vec byte n :=
  match n with
  | O => [#]
  | S n' =>
      match l with
      | [] => x00 ::: take_vec n' []
      | a :: l' => a ::: take_vec n' l'
      end
  end.

(** A value that fits a uint8. *)
Definition isU8 (v : Z) : Prop := Z.land v 255 = v.

(** [[]byte(s)] and [string(b)]. *)
Definition bytes_of_string (s : string) : bytes := list_byte_of_string s.
Definition string_of_bytes (b : bytes) : string := string_of_list_byte b.

(** ** crypto/sha1 *)
Module Sha1.
Local Open Scope Z_scope.

Definition Size : nat := 20.
Definition BlockSize : nat := 64.

(** uint32 arithmetic, wrap-around written out. *)
Definition u32 (x : Z) : Z := Z.land x 0xFFFFFFFF.
Definition add32 (x y : Z) : Z := u32 (x + y).
Definition not32 (x : Z) : Z := Z.lxor (u32 x) 0xFFFFFFFF.
(** [bits.RotateLeft32]. *)
Definition RotateLeft32 (x : Z) (k : Z) : Z :=
  u32 (Z.lor (Z.shiftl x k) (Z.shiftr (u32 x) (32 - k))).

Definition _K0 : Z := 0x5A827999.
Definition _K1 : Z := 0x6ED9EBA1.
Definition _K2 : Z := 0x8F1BBCDC.
Definition _K3 : Z := 0xCA62C1D6.

Definition init0 : Z := 0x67452301.
Definition init1 : Z := 0xEFCDAB89.
Definition init2 : Z := 0x98BADCFE.
Definition init3 : Z := 0x10325476.
Definition init4 : Z := 0xC3D2E1F0.

(** The five chaining words [dig.h]. *)
Record digest := Digest { h0 : Z; h1 : Z; h2 : Z; h3 : Z; h4 : Z }.

Definition Reset : digest := Digest init0 init1 init2 init3 init4.

(** [uint32(p[j])<<24 | uint32(p[j+1])<<16 | uint32(p[j+2])<<8 | uint32(p[j+3])] *)
Definition be32 (b0 b1 b2 b3 : Z) : Z :=
  Z.lor (Z.lor (Z.lor (Z.shiftl b0 24) (Z.shiftl b1 16)) (Z.shiftl b2 8)) b3.

Fixpoint words (p : list Z) : list Z :=
  match p with
  | b0 :: b1 :: b2 :: b3 :: rest => be32 b0 b1 b2 b3 :: words rest
  | _ => []
  end.

(** The message schedule. The source keeps a rolling window of sixteen
    words; here the eighty words are laid out in a list, most recent
    first while it is being extended. *)
Fixpoint extend (n : nat) (rw : list Z) : list Z :=
  match n with
  | O => rw
  | S n' =>
      let tmp := Z.lxor (Z.lxor (Z.lxor (nth 2 rw 0) (nth 7 rw 0)) (nth 13 rw 0))
                        (nth 15 rw 0) in
      extend n' (RotateLeft32 tmp 1 :: rw)
  end.

Definition schedule (w16 : list Z) : list Z := rev (extend 64 (rev w16)).

Definition roundF (i : nat) (b c d : Z) : Z :=
  if (i <? 20)%nat then Z.lor (Z.land b c) (Z.land (not32 b) d)
  else if (i <? 40)%nat then Z.lxor (Z.lxor b c) d
  else if (i <? 60)%nat then Z.lor (Z.land (Z.lor b c) d) (Z.land b c)
  else Z.lxor (Z.lxor b c) d.

Definition roundK (i : nat) : Z :=
  if (i <? 20)%nat then _K0
  else if (i <? 40)%nat then _K1
  else if (i <? 60)%nat then _K2
  else _K3.

(** One iteration of the round loops:
    [t := RotateLeft32(a, 5) + f + e + w[i] + K;
     a, b, c, d, e = t, a, RotateLeft32(b, 30), c, d]. *)
Definition round (i : nat) (wi : Z) (s : digest) : digest :=
  let '(Digest a b c d e) := s in
  let f := roundF i b c d in
  let t := add32 (add32 (add32 (add32 (RotateLeft32 a 5) f) e) wi) (roundK i) in
  Digest t a (RotateLeft32 b 30) c d.

Fixpoint rounds (i : nat) (ws : list Z) (s : digest) : digest :=
  match ws with
  | [] => s
  | wi :: ws' => rounds (S i) ws' (round i wi s)
  end.

(** The body of [blockGeneric]'s outer loop on one 64-byte chunk. *)
Definition chunk (dig : digest) (p : list Z) : digest :=
  let s := rounds 0 (schedule (words p)) dig in
  Digest (add32 (h0 dig) (h0 s)) (add32 (h1 dig) (h1 s)) (add32 (h2 dig) (h2 s))
         (add32 (h3 dig) (h3 s)) (add32 (h4 dig) (h4 s)).

(** [blockGeneric]: [for len(p) >= chunk { ...; p = p[chunk:] }]. *)
Fixpoint blockGeneric (n : nat) (dig : digest) (p : list Z) : digest :=
  match n with
  | O => dig
  | S n' => blockGeneric n' (chunk dig (firstn 64 p)) (skipn 64 p)
  end.

Definition block (dig : digest) (p : list Z) : digest :=
  blockGeneric (Nat.div (List.length p) 64) dig p.

(** [binary.BigEndian.PutUint64]. *)
Definition be64 (x : Z) : list Z :=
  map (fun k => Z.land (Z.shiftr x k) 255) [56; 48; 40; 32; 24; 16; 8; 0].

(** [checkSum]'s padding: 0x80, zeros up to 56 mod 64, then the length
    in bits as a uint64. *)
Definition padding (len : nat) : list Z :=
  let r := Nat.modulo len 64 in
  let n := if (r <? 56)%nat then (56 - r)%nat else (64 + 56 - r)%nat in
  (0x80 :: repeat 0 (n - 1)) ++ be64 (Z.land (Z.shiftl (Z.of_nat len) 3) 0xFFFFFFFFFFFFFFFF).

Definition putUint32 (x : Z) : bytes :=
  [byte_of_Z (Z.shiftr x 24); byte_of_Z (Z.shiftr x 16);
   byte_of_Z (Z.shiftr x 8); byte_of_Z x].

Definition checkSum (dig : digest) : bytes :=
  putUint32 (h0 dig) ++ putUint32 (h1 dig) ++ putUint32 (h2 dig) ++
  putUint32 (h3 dig) ++ putUint32 (h4 dig).

(** [h := sha1.New(); h.Write(data); h.Sum(nil)]. *)
Definition Sum (data : bytes) : bytes :=
  let p := map Z_of_byte data in
  checkSum (block Reset (p ++ padding (List.length data))).
End Sha1.

(** ** crypto/hmac over SHA-1: [hmac.New(sha1.New, key)], [Write], [Sum(nil)] *)
Module Hmac.
Definition xorByte (k : Z) (b : byte) : byte := byte_of_Z (Z.lxor (Z_of_byte b) k).

(** [if len(key) > blocksize { key = H(key) }], then [copy] into a
    zeroed block. *)
Definition blockKey (key : bytes) : bytes :=
  let key' := if (Sha1.BlockSize <? List.length key)%nat then Sha1.Sum key else key in
  key' ++ repeat x00 (Sha1.BlockSize - List.length key').

Definition ipad (key : bytes) : bytes := map (xorByte 0x36) (blockKey key).
Definition opad (key : bytes) : bytes := map (xorByte 0x5c) (blockKey key).

Definition Sum (key message : bytes) : bytes :=
  Sha1.Sum (opad key ++ Sha1.Sum (ipad key ++ message)).
End Hmac.

(** ** encoding/hex *)
Module Hex.
Definition hextable : string := "0123456789abcdef".

Definition digit (n : Z) : ascii :=
  match String.get (Z.to_nat n) hextable with
  | Some c => c
  | None => "0"%char
  end.

(** [dst[j] = hextable[v>>4]; dst[j+1] = hextable[v&0x0f]]. *)
Fixpoint EncodeToString (src : bytes) : string :=
  match src with
  | [] => EmptyString
  | v :: rest =>
      String (digit (Z.shiftr (Z_of_byte v) 4))
        (String (digit (Z.land (Z_of_byte v) 0x0f)) (EncodeToString rest))
  end.

(** [fromHexChar]: the value of one lower-case hex digit. *)
Definition fromHexChar (c : ascii) : Z :=
  let n := Z.of_nat (nat_of_ascii c) in
  if (48 <=? n)%Z && (n <=? 57)%Z then n - 48
  else if (97 <=? n)%Z && (n <=? 102)%Z then n - 97 + 10
  else 0.

(** One step of [Decode]: [(a << 4) | b]. *)
Definition decodePair (c1 c2 : ascii) : byte :=
  byte_of_Z (Z.lor (Z.shiftl (fromHexChar c1) 4) (fromHexChar c2)).
End Hex.

(** Go's [error] values are carried by their message; [None] is [nil]. *)
Abbreviation error := string.

(** ** crypto/subtle and [hmac.Equal] *)
Module Subtle.
Local Open Scope Z_scope.

(** [for i := 0; i < len(x); i++ { v |= x[i] ^ y[i] }] *)
Fixpoint accumulate (v : Z) (x y : bytes) : Z :=
  match x, y with
  | a :: x', b :: y' => accumulate (Z.lor v (Z.lxor (Z_of_byte a) (Z_of_byte b))) x' y'
  | _, _ => v
  end.

(** [ConstantTimeByteEq(x, y) = int((uint32(x^y) - 1) >> 31)]. *)
Definition ConstantTimeByteEq (x y : Z) : Z :=
  Z.shiftr (Z.land (Z.lxor x y - 1) 0xFFFFFFFF) 31.

Definition ConstantTimeCompare (x y : bytes) : Z :=
  if negb (List.length x =? List.length y)%nat then 0
  else ConstantTimeByteEq (accumulate 0 x y) 0.
End Subtle.

Module HmacEqual.
(** [hmac.Equal(mac1, mac2) = subtle.ConstantTimeCompare(mac1, mac2) == 1]. *)
Definition Equal (mac1 mac2 : bytes) : bool :=
  (Subtle.ConstantTimeCompare mac1 mac2 =? 1)%Z.
End HmacEqual.

(** ** encoding/json: the syntax check run by [json.Unmarshal] *)
Module Json.

(** The scanner's step functions, as tags for [scanner.step]. *)
Inductive Step :=
| StBeginValueOrEmpty | StBeginValue | StBeginStringOrEmpty | StBeginString
| StEndValue | StEndTop
| StInString | StInStringEsc | StInStringEscU | StInStringEscU1
| StInStringEscU12 | StInStringEscU123
| StNeg | St1 | St0 | StDot | StDot0 | StE | StESign | StE0
| StT | StTr | StTru | StF | StFa | StFal | StFals | StN | StNu | StNul
| StError.

Inductive ParseState := parseObjectKey | parseObjectValue | parseArrayValue.

Inductive ScanOp :=
| scanContinue | scanBeginLiteral | scanBeginObject | scanObjectKey
| scanObjectValue | scanEndObject | scanBeginArray | scanArrayValue
| scanEndArray | scanSkipSpace | scanEnd | scanError.

Record scanner := Scanner {
  step : Step;
  endTop : bool;
  parseState : list ParseState;   (* top of the stack first *)
  err : option error
}.

Definition isByte (c : byte) (a : ascii) : bool := Byte.eqb c (byte_of_ascii a).

(** The double quote and the backslash, by code. *)
Definition quote : ascii := "034".
Definition backslash : ascii := "092".

Definition between (lo hi : ascii) (c : byte) : bool :=
  (N.leb (Byte.to_N (byte_of_ascii lo)) (Byte.to_N c) &&
   N.leb (Byte.to_N c) (Byte.to_N (byte_of_ascii hi)))%bool.

Definition isSpace (c : byte) : bool :=
  (isByte c " " || isByte c "009" || isByte c "013" || isByte c "010")%bool.

Definition isDigit : byte -> bool := between "0" "9".

Definition isHex (c : byte) : bool :=
  (isDigit c || between "a" "f" c || between "A" "F" c)%bool.

Definition reset : scanner := Scanner StBeginValue false [] None.

Definition setStep (s : scanner) (f : Step) : scanner :=
  Scanner f (endTop s) (parseState s) (err s).

(** [s.error(c, context)]: records the error and parks the scanner. *)
Definition error_ (s : scanner) (context : string) : scanner * ScanOp :=
  (Scanner StError (endTop s) (parseState s)
     (Some ("invalid character " ++ context)%string), scanError).

Definition pushParseState (s : scanner) (p : ParseState) : scanner :=
  Scanner (step s) (endTop s) (p :: parseState s) (err s).

Definition replaceTop (s : scanner) (p : ParseState) : scanner :=
  Scanner (step s) (endTop s) (p :: tl (parseState s)) (err s).

Definition popParseState (s : scanner) : scanner :=
  match tl (parseState s) with
  | [] => Scanner StEndTop true [] (err s)
  | rest => Scanner StEndValue (endTop s) rest (err s)
  end.

Definition stateEndTop (s : scanner) (c : byte) : scanner * ScanOp :=
  if isSpace c then (s, scanEnd)
  else (fst (error_ s "after top-level value"), scanEnd).

Definition stateEndValue (s : scanner) (c : byte) : scanner * ScanOp :=
  match parseState s with
  | [] => stateEndTop (Scanner StEndTop true [] (err s)) c
  | ps :: _ =>
      if isSpace c then (setStep s StEndValue, scanSkipSpace)
      else match ps with
           | parseObjectKey =>
               if isByte c ":" then (setStep (replaceTop s parseObjectValue) StBeginValue, scanObjectKey)
               else error_ s "after object key"
           | parseObjectValue =>
               if isByte c "," then (setStep (replaceTop s parseObjectKey) StBeginString, scanObjectValue)
               else if isByte c "}" then (popParseState s, scanEndObject)
               else error_ s "after object key:value pair"
           | parseArrayValue =>
               if isByte c "," then (setStep s StBeginValue, scanArrayValue)
               else if isByte c "]" then (popParseState s, scanEndArray)
               else error_ s "after array element"
           end
  end.

Definition stateBeginValue (s : scanner) (c : byte) : scanner * ScanOp :=
  if isSpace c then (s, scanSkipSpace)
  else if isByte c "{" then (pushParseState (setStep s StBeginStringOrEmpty) parseObjectKey, scanBeginObject)
  else if isByte c "[" then (pushParseState (setStep s StBeginValueOrEmpty) parseArrayValue, scanBeginArray)
  else if isByte c quote then (setStep s StInString, scanBeginLiteral)
  else if isByte c "-" then (setStep s StNeg, scanBeginLiteral)
  else if isByte c "0" then (setStep s St0, scanBeginLiteral)
  else if isByte c "t" then (setStep s StT, scanBeginLiteral)
  else if isByte c "f" then (setStep s StF, scanBeginLiteral)
  else if isByte c "n" then (setStep s StN, scanBeginLiteral)
  else if between "1" "9" c then (setStep s St1, scanBeginLiteral)
  else error_ s "looking for beginning of value".

Definition stateBeginValueOrEmpty (s : scanner) (c : byte) : scanner * ScanOp :=
  if isSpace c then (s, scanSkipSpace)
  else if isByte c "]" then stateEndValue s c
  else stateBeginValue s c.

Definition stateBeginString (s : scanner) (c : byte) : scanner * ScanOp :=
  if isSpace c then (s, scanSkipSpace)
  else if isByte c quote then (setStep s StInString, scanBeginLiteral)
  else error_ s "looking for beginning of object key string".

Definition stateBeginStringOrEmpty (s : scanner) (c : byte) : scanner * ScanOp :=
  if isSpace c then (s, scanSkipSpace)
  else if isByte c "}" then stateEndValue (replaceTop s parseObjectValue) c
  else stateBeginString s c.

Definition stateInString (s : scanner) (c : byte) : scanner * ScanOp :=
  if isByte c quote then (setStep s StEndValue, scanContinue)
  else if isByte c backslash then (setStep s StInStringEsc, scanContinue)
  else if N.ltb (Byte.to_N c) 32 then error_ s "in string literal"
  else (s, scanContinue).

Definition stateInStringEsc (s : scanner) (c : byte) : scanner * ScanOp :=
  if (isByte c "b" || isByte c "f" || isByte c "n" || isByte c "r" || isByte c "t" ||
      isByte c backslash || isByte c "/" || isByte c quote)%bool
  then (setStep s StInString, scanContinue)
  else if isByte c "u" then (setStep s StInStringEscU, scanContinue)
  else error_ s "in string escape code".

Definition hexThen (next : Step) (s : scanner) (c : byte) : scanner * ScanOp :=
  if isHex c then (setStep s next, scanContinue)
  else error_ s "in hexadecimal character escape".

Definition stateNeg (s : scanner) (c : byte) : scanner * ScanOp :=
  if isByte c "0" then (setStep s St0, scanContinue)
  else if between "1" "9" c then (setStep s St1, scanContinue)
  else error_ s "in numeric literal".

Definition state0 (s : scanner) (c : byte) : scanner * ScanOp :=
  if isByte c "." then (setStep s StDot, scanContinue)
  else if (isByte c "e" || isByte c "E")%bool then (setStep s StE, scanContinue)
  else stateEndValue s c.

Definition state1 (s : scanner) (c : byte) : scanner * ScanOp :=
  if isDigit c then (setStep s St1, scanContinue)
  else state0 s c.

Definition stateDot (s : scanner) (c : byte) : scanner * ScanOp :=
  if isDigit c then (setStep s StDot0, scanContinue)
  else error_ s "after decimal point in numeric literal".

Definition stateDot0 (s : scanner) (c : byte) : scanner * ScanOp :=
  if isDigit c then (s, scanContinue)
  else if (isByte c "e" || isByte c "E")%bool then (setStep s StE, scanContinue)
  else stateEndValue s c.

Definition stateESign (s : scanner) (c : byte) : scanner * ScanOp :=
  if isDigit c then (setStep s StE0, scanContinue)
  else error_ s "in exponent of numeric literal".

Definition stateE (s : scanner) (c : byte) : scanner * ScanOp :=
  if (isByte c "+" || isByte c "-")%bool then (setStep s StESign, scanContinue)
  else stateESign s c.

Definition stateE0 (s : scanner) (c : byte) : scanner * ScanOp :=
  if isDigit c then (s, scanContinue)
  else stateEndValue s c.

(** The literal states [stateT], [stateTr], ...: one expected letter. *)
Definition letterThen (a : ascii) (next : Step) (context : string)
    (s : scanner) (c : byte) : scanner * ScanOp :=
  if isByte c a then (setStep s next, scanContinue)
  else error_ s context.

(** [s.step(s, c)]. *)
Definition runStep (s : scanner) (c : byte) : scanner * ScanOp :=
  match step s with
  | StBeginValueOrEmpty => stateBeginValueOrEmpty s c
  | StBeginValue => stateBeginValue s c
  | StBeginStringOrEmpty => stateBeginStringOrEmpty s c
  | StBeginString => stateBeginString s c
  | StEndValue => stateEndValue s c
  | StEndTop => stateEndTop s c
  | StInString => stateInString s c
  | StInStringEsc => stateInStringEsc s c
  | StInStringEscU => hexThen StInStringEscU1 s c
  | StInStringEscU1 => hexThen StInStringEscU12 s c
  | StInStringEscU12 => hexThen StInStringEscU123 s c
  | StInStringEscU123 => hexThen StInString s c
  | StNeg => stateNeg s c
  | St1 => state1 s c
  | St0 => state0 s c
  | StDot => stateDot s c
  | StDot0 => stateDot0 s c
  | StE => stateE s c
  | StESign => stateESign s c
  | StE0 => stateE0 s c
  | StT => letterThen "r" StTr "in literal true (expecting 'r')" s c
  | StTr => letterThen "u" StTru "in literal true (expecting 'u')" s c
  | StTru => letterThen "e" StEndValue "in literal true (expecting 'e')" s c
  | StF => letterThen "a" StFa "in literal false (expecting 'a')" s c
  | StFa => letterThen "l" StFal "in literal false (expecting 'l')" s c
  | StFal => letterThen "s" StFals "in literal false (expecting 's')" s c
  | StFals => letterThen "e" StEndValue "in literal false (expecting 'e')" s c
  | StN => letterThen "u" StNu "in literal null (expecting 'u')" s c
  | StNu => letterThen "l" StNul "in literal null (expecting 'l')" s c
  | StNul => letterThen "l" StEndValue "in literal null (expecting 'l')" s c
  | StError => (s, scanError)
  end.

(** [s.eof()]. *)
Definition eof (s : scanner) : option error :=
  match err s with
  | Some e => Some e
  | None =>
      if endTop s then None
      else
        let s' := fst (runStep s (byte_of_ascii " ")) in
        if endTop s' then None
        else match err s' with
             | Some e => Some e
             | None => Some "unexpected end of JSON input"%string
             end
  end.

(** [checkValid(data, scan)]: the loop over the input, then [eof]. *)
Fixpoint scanAll (s : scanner) (data : bytes) : option error :=
  match data with
  | [] => eof s
  | c :: rest =>
      match runStep s c with
      | (s', scanError) => Some (default "invalid character"%string (err s'))
      | (s', _) => scanAll s' rest
      end
  end.

Definition checkValid (data : bytes) : option error := scanAll reset data.

(** [json.Valid]. *)
Definition Valid (data : bytes) : bool :=
  match checkValid data with None => true | Some _ => false end.
End Json.


(** ** net/http and io/ioutil *)
Module Http.
(** [http.Header], a [map[string][]string]. *)
Abbreviation Header := (gmap string (list string)).

Definition isLower (c : ascii) : bool :=
  (Nat.leb 97 (nat_of_ascii c) && Nat.leb (nat_of_ascii c) 122)%bool.
Definition isUpper (c : ascii) : bool :=
  (Nat.leb 65 (nat_of_ascii c) && Nat.leb (nat_of_ascii c) 90)%bool.

(** [textproto.CanonicalMIMEHeaderKey] on a key made of token
    characters: the first letter and every letter after a hyphen in
    upper case, the others in lower case. *)
Fixpoint canonical (upper : bool) (s : string) : string :=
  match s with
  | EmptyString => EmptyString
  | String c rest =>
      let c' :=
        if (upper && isLower c)%bool then ascii_of_nat (nat_of_ascii c - 32)
        else if (negb upper && isUpper c)%bool then ascii_of_nat (nat_of_ascii c + 32)
        else c in
      String c' (canonical (Ascii.eqb c' "-") rest)
  end.

Definition CanonicalMIMEHeaderKey (s : string) : string := canonical true s.

(** [h.Get(key)]: the first value stored under the canonical key, or
    the empty string. *)
Definition Get (h : Header) (key : string) : string :=
  match h !! CanonicalMIMEHeaderKey key with
  | Some (v :: _) => v
  | _ => EmptyString
  end.

Definition StatusBadRequest : Z := 400.
Definition StatusForbidden : Z := 403.
Definition StatusInternalServerError : Z := 500.

(** The request body as [ioutil.ReadAll] sees it: the bytes it
    returns and the error it ends with. *)
Record Body := { data : bytes; readErr : option error }.

Definition ReadAll (b : Body) : bytes * option error := (data b, readErr b).

Record Request := { req_Header : Header; req_Body : Body }.
End Http.

(** ** Package github: the event vocabulary *)

Abbreviation Event := string.

Definition CommitCommentEvent : Event := "commit_comment".
Definition CreateEvent : Event := "create".
Definition DeleteEvent : Event := "delete".
Definition DeploymentEvent : Event := "deployment".
Definition DeploymentStatusEvent : Event := "deployment_status".
Definition ForkEvent : Event := "fork".
Definition GollumEvent : Event := "gollum".
Definition InstallationEvent : Event := "installation".
Definition IntegrationInstallationEvent : Event := "integration_installation".
Definition IssueCommentEvent : Event := "issue_comment".
Definition IssuesEvent : Event := "issues".
Definition LabelEvent : Event := "label".
Definition MemberEvent : Event := "member".
Definition MembershipEvent : Event := "membership".
Definition MilestoneEvent : Event := "milestone".
Definition OrganizationEvent : Event := "organization".
Definition OrgBlockEvent : Event := "org_block".
Definition PageBuildEvent : Event := "page_build".
Definition PingEvent : Event := "ping".
Definition ProjectCardEvent : Event := "project_card".
Definition ProjectColumnEvent : Event := "project_column".
Definition ProjectEvent : Event := "project".
Definition PublicEvent : Event := "public".
Definition PullRequestEvent : Event := "pull_request".
Definition PullRequestReviewEvent : Event := "pull_request_review".
Definition PullRequestReviewCommentEvent : Event := "pull_request_review_comment".
Definition PushEvent : Event := "push".
Definition ReleaseEvent : Event := "release".
Definition RepositoryEvent : Event := "repository".
Definition StatusEvent : Event := "status".
Definition TeamEvent : Event := "team".
Definition TeamAddEvent : Event := "team_add".
Definition WatchEvent : Event := "watch".

(** The 33 constants of the first [const] block. *)
Definition vocabulary : list Event :=
  [CommitCommentEvent; CreateEvent; DeleteEvent; DeploymentEvent;
   DeploymentStatusEvent; ForkEvent; GollumEvent; InstallationEvent;
   IntegrationInstallationEvent; IssueCommentEvent; IssuesEvent; LabelEvent;
   MemberEvent; MembershipEvent; MilestoneEvent; OrganizationEvent;
   OrgBlockEvent; PageBuildEvent; PingEvent; ProjectCardEvent;
   ProjectColumnEvent; ProjectEvent; PublicEvent; PullRequestEvent;
   PullRequestReviewEvent; PullRequestReviewCommentEvent; PushEvent;
   ReleaseEvent; RepositoryEvent; StatusEvent; TeamEvent; TeamAddEvent;
   WatchEvent].

Abbreviation EventSubtype := string.

Definition NoSubtype : EventSubtype := EmptyString.
Definition BranchSubtype : EventSubtype := "branch".
Definition TagSubtype : EventSubtype := "tag".
Definition PullSubtype : EventSubtype := "pull".
Definition IssueSubtype : EventSubtype := "issues".

(** ** The payload struct types named by [ParsePayload]'s switch *)
Inductive PayloadType :=
| CommitCommentPayload | CreatePayload | DeletePayload | DeploymentPayload
| DeploymentStatusPayload | ForkPayload | GollumPayload | InstallationPayload
| IssueCommentPayload | IssuesPayload | LabelPayload | MemberPayload
| MembershipPayload | MilestonePayload | OrganizationPayload | OrgBlockPayload
| PageBuildPayload | PingPayload | ProjectCardPayload | ProjectColumnPayload
| ProjectPayload | PublicPayload | PullRequestPayload | PullRequestReviewPayload
| PullRequestReviewCommentPayload | PushPayload | ReleasePayload
| RepositoryPayload | StatusPayload | TeamPayload | TeamAddPayload | WatchPayload.

#[global] Instance PayloadType_eq_dec : EqDecision PayloadType.
Proof. solve_decision. Defined.

(** The declarations of the payload structs are not in [event.go]. They
    enter as a parameter: the type of struct values, what [var p T]
    yields, and what the decoder stores into a fresh [T] (with the error
    it reports, if any) from a document that passed the syntax check. *)
Class PayloadDecls := {
  Struct : Type;
  zeroValue : PayloadType -> Struct;
  populate : PayloadType -> bytes -> Struct * option error
}.

(** [webhooks.ProcessPayloadFunc]: the caller's callback, by handle. Its
    own effects are the caller's; a call is recorded with its arguments. *)
Abbreviation ProcessPayloadFunc := nat.

(** The two fields of [Webhook] that [event.go] reads. *)
Record Webhook := {
  secret : string;
  eventFuncs : gmap string ProcessPayloadFunc
}.

Inductive Logger := webhooks_DefaultLog | Webhook_DefaultLog.
Inductive Level := Info | Debug | Error.

(** Result of running Go code: it returns, or the goroutine panics. *)
Inductive Exec (A : Type) :=
| Returned (a : A)
| Panicked (msg : string).
Arguments Returned {A} a.
Arguments Panicked {A} msg.

(** [s[n:]] on a string: a run-time panic when [n > len(s)]. *)
Definition sliceFrom (s : string) (n : nat) : Exec string :=
  if (n <=? String.length s)%nat
  then Returned (String.substring n (String.length s - n) s)
  else Panicked "runtime error: slice bounds out of range".

Section Pipeline.
Context `{PayloadDecls}.

(** An [interface{}] holding a payload struct: dynamic type and value. *)
Record iface := Iface { dynType : PayloadType; value : Struct }.

(** What a run does to its surroundings, in order. *)
Inductive Effect :=
| LogLine (logger : Logger) (level : Level) (msg : string)
| HttpError (msg : string) (code : Z)             (* http.Error(w, msg, code) *)
| Call (fn : ProcessPayloadFunc) (results : iface) (header : Http.Header).

(** The state a run can see. [verifySignature] names [payload] and
    [getGitHubHandler] names [hook] without declaring them or receiving
    them: both resolve at package level. [trace] collects the writes to
    the response writer, the log lines and the callback calls. *)
Record World := {
  pkg_hook : Webhook;
  pkg_payload : bytes;
  trace : list Effect
}.

Definition M (A : Type) : Type := World -> Exec A * World.

#[global] Instance M_ret : MRet M := fun A a w => (Returned a, w).
#[global] Instance M_bind : MBind M := fun A B f m w =>
  match m w with
  | (Returned a, w') => f a w'
  | (Panicked msg, w') => (Panicked msg, w')
  end.

Definition withTrace (w : World) (t : list Effect) : World :=
  {| pkg_hook := pkg_hook w; pkg_payload := pkg_payload w; trace := t |}.

Definition emit (e : Effect) : M unit := fun w =>
  (Returned tt, withTrace w (trace w ++ [e])).

Definition readWorld {A} (f : World -> A) : M A := fun w => (Returned (f w), w).

Definition lift {A} (x : Exec A) : M A := fun w => (x, w).

Definition webhooks_log (l : Level) (msg : string) : M unit :=
  emit (LogLine webhooks_DefaultLog l msg).
Definition Webhook_log (l : Level) (msg : string) : M unit :=
  emit (LogLine Webhook_DefaultLog l msg).
Definition http_Error (msg : string) (code : Z) : M unit := emit (HttpError msg code).

(** [json.Unmarshal(data, &p)] on a fresh [var p T]: a document that
    fails the syntax check leaves [p] as declared. *)
Definition Unmarshal (T : PayloadType) (data : bytes) : Struct * option error :=
  match Json.checkValid data with
  | Some e => (zeroValue T, Some e)
  | None => populate T data
  end.

Definition getGitHubEvent (hook : Webhook) (r : Http.Request) : M (Event * option error) :=
  webhooks_log Info "Parsing Payload...";;
  let event := Http.Get (Http.req_Header r) "X-GitHub-Event" in
  if (String.length event =? 0)%nat then
    let err := "Missing X-GitHub-Event Header"%string in
    http_Error err Http.StatusBadRequest;;
    mret (EmptyString, Some err)
  else
    webhooks_log Debug ("X-GitHub-Event:" ++ event)%string;;
    mret (event, None).

Definition verifySignature (hook : Webhook) (r : Http.Request) : M (option error) :=
  if (0 <? String.length (secret hook))%nat then
    webhooks_log Info "Checking secret";;
    let signature := Http.Get (Http.req_Header r) "X-Hub-Signature" in
    if (String.length signature =? 0)%nat then
      let err := "Missing X-Hub-Signature required for HMAC verification"%string in
      webhooks_log Error err;;
      http_Error err Http.StatusForbidden;;
      mret (Some err)
    else
      webhooks_log Debug ("X-Hub-Signature:" ++ signature)%string;;
      payload ← readWorld pkg_payload;
      let mac := Hmac.Sum (bytes_of_string (secret hook)) payload in
      let expectedMAC := Hex.EncodeToString mac in
      presented ← lift (sliceFrom signature 5);
      if negb (HmacEqual.Equal (bytes_of_string presented) (bytes_of_string expectedMAC)) then
        let err := "HMAC verification failed"%string in
        webhooks_log Error err;;
        http_Error err Http.StatusForbidden;;
        mret (Some err)
      else mret None
  else mret None.

Definition readPayload (hook : Webhook) (r : Http.Request) : M (bytes * option error) :=
  let '(payload, err) := Http.ReadAll (Http.req_Body r) in
  if (bool_decide (err ≠ None) || (List.length payload =? 0)%nat)%bool then
    let err := "Issue reading Payload"%string in
    webhooks_log Error err;;
    http_Error err Http.StatusInternalServerError;;
    mret ([], Some err)
  else
    webhooks_log Debug ("Payload:" ++ string_of_bytes payload)%string;;
    mret (payload, None).

Definition notRegistered (event : Event) : error :=
  ("Webhook Event " ++ event ++ " not registered, it is recommended to setup only events in github that will be registered in the webhook to avoid unnecessary traffic and reduce potential attack vectors.")%string.

Definition getGitHubHandler (event : Event) : M (option ProcessPayloadFunc * option error) :=
  hook ← readWorld pkg_hook;
  match eventFuncs hook !! event with
  | None => mret (None, Some (notRegistered event))
  | Some fn => mret (Some fn, None)
  end.

(** [fn(results, header)]; calling a nil function value panics. *)
Definition runProcessPayloadFunc (hook : Webhook) (fn : option ProcessPayloadFunc)
    (results : iface) (header : Http.Header) : M unit :=
  match fn with
  | Some f => emit (Call f results header)
  | None => lift (Panicked "runtime error: invalid memory address or nil pointer dereference")
  end.

(** The [case] labels of the switch, top to bottom, with the struct
    type each body declares. *)
Definition switchCases : list (list Event * PayloadType) :=
  [([CommitCommentEvent], CommitCommentPayload);
   ([CreateEvent], CreatePayload);
   ([DeleteEvent], DeletePayload);
   ([DeploymentEvent], DeploymentPayload);
   ([DeploymentStatusEvent], DeploymentStatusPayload);
   ([ForkEvent], ForkPayload);
   ([GollumEvent], GollumPayload);
   ([InstallationEvent; IntegrationInstallationEvent], InstallationPayload);
   ([IssueCommentEvent], IssueCommentPayload);
   ([IssuesEvent], IssuesPayload);
   ([LabelEvent], LabelPayload);
   ([MemberEvent], MemberPayload);
   ([MembershipEvent], MembershipPayload);
   ([MilestoneEvent], MilestonePayload);
   ([OrganizationEvent], OrganizationPayload);
   ([OrgBlockEvent], OrgBlockPayload);
   ([PageBuildEvent], PageBuildPayload);
   ([PingEvent], PingPayload);
   ([ProjectCardEvent], ProjectCardPayload);
   ([ProjectColumnEvent], ProjectColumnPayload);
   ([ProjectEvent], ProjectPayload);
   ([PublicEvent], PublicPayload);
   ([PullRequestEvent], PullRequestPayload);
   ([PullRequestReviewEvent], PullRequestReviewPayload);
   ([PullRequestReviewCommentEvent], PullRequestReviewCommentPayload);
   ([PushEvent], PushPayload);
   ([ReleaseEvent], ReleasePayload);
   ([RepositoryEvent], RepositoryPayload);
   ([StatusEvent], StatusPayload);
   ([TeamEvent], TeamPayload);
   ([TeamAddEvent], TeamAddPayload);
   ([WatchEvent], WatchPayload)].

(** [switch gitHubEvent]: the first case with a matching label; there
    is no [default]. *)
Fixpoint selectCase (cases : list (list Event * PayloadType)) (ev : Event)
    : option PayloadType :=
  match cases with
  | [] => None
  | (labels, T) :: rest =>
      if existsb (String.eqb ev) labels then Some T else selectCase rest ev
  end.

(** The body shared by every case:
    [var p T; json.Unmarshal([]byte(payload), &p);
     hook.runProcessPayloadFunc(fn, p, hd)]. *)
Definition caseBody (hook : Webhook) (T : PayloadType) (fn : option ProcessPayloadFunc)
    (payload : bytes) (hd : Http.Header) : M unit :=
  let '(p, _) := Unmarshal T payload in
  runProcessPayloadFunc hook fn (Iface T p) hd.

(** The [switch] statement of [ParsePayload]. *)
Definition dispatch (hook : Webhook) (gitHubEvent : Event)
    (fn : option ProcessPayloadFunc) (payload : bytes) (hd : Http.Header) : M unit :=
  match selectCase switchCases gitHubEvent with
  | Some T => caseBody hook T fn payload hd
  | None => mret tt
  end.

Definition ParsePayload (hook : Webhook) (r : Http.Request) : M unit :=
  '(gitHubEvent, err) ← getGitHubEvent hook r;
  match err with
  | Some e => webhooks_log Error e
  | None =>
      '(fn, err) ← getGitHubHandler gitHubEvent;
      match err with
      | Some e => webhooks_log Error e
      | None =>
          err ← verifySignature hook r;
          match err with
          | Some e => Webhook_log Debug e
          | None =>
              '(payload, err) ← readPayload hook r;
              match err with
              | Some e => Webhook_log Debug e
              | None =>
                  let hd := Http.req_Header r in
                  dispatch hook gitHubEvent fn payload hd
              end
          end
      end
  end.

(** *** Reading a trace *)

(** The callback calls of a trace, in order. *)
Definition calls (t : list Effect) : list (ProcessPayloadFunc * iface * Http.Header) :=
  omap (fun e => match e with Call fn v hd => Some (fn, v, hd) | _ => None end) t.

(** The error responses written with [http.Error], in order. *)
Definition responses (t : list Effect) : list (string * Z) :=
  omap (fun e => match e with HttpError msg code => Some (msg, code) | _ => None end) t.

(** A computation that reads the package-level state, leaves it as it
    is and only appends to the trace: its result and what it appends do
    not depend on the trace it starts from. *)
Definition appendOnly {A} (m : M A) : Prop :=
  forall w, exists o d, forall t, m (withTrace w t) = (o, withTrace w (t ++ d)).

(** What a run started in [w] returns and appends. *)
Definition result {A} (m : M A) (w : World) : Exec A := fst (m w).
Definition appended {A} (m : M A) (w : World) : list Effect :=
  skipn (List.length (trace w)) (trace (snd (m w))).
End Pipeline.

(** ** The signature scheme of the sender, in the specification's words *)

(** [sign(S, B)]: the text [sha1=] followed by the hex-encoded HMAC-SHA1
    of [B] under key [S]. *)
Definition sign (S : string) (B : bytes) : string :=
  ("sha1=" ++ Hex.EncodeToString (Hmac.Sum (bytes_of_string S) B))%string.

(** ** Concrete requests *)

(** Modelled from the spec: the payload struct declarations are not in
    [event.go]. The decoded payload is the value produced by decoding the
    raw body according to the schema of the token; for running the
    pipeline on concrete requests a struct value is represented by the
    document it was populated from, and [None] is the value a declaration
    without initialiser has. *)
#[export] Instance documentDecls : PayloadDecls := {|
  Struct := option bytes;
  zeroValue := fun _ => None;
  populate := fun _ doc => (Some doc, None)
|}.

(** Test inputs are written with apostrophes where the JSON text has
    double quotes. *)
Definition jsonText (s : string) : bytes :=
  map (fun b => if Byte.eqb b (byte_of_ascii "'") then byte_of_ascii Json.quote else b)
      (bytes_of_string s).

Definition request (headers : list (string * string)) (body : bytes) : Http.Request :=
  {| Http.req_Header := list_to_map (map (fun kv => (fst kv, [snd kv])) headers);
     Http.req_Body := {| Http.data := body; Http.readErr := None |} |}.

Definition world (registry : Webhook) (payload : bytes) : World :=
  {| pkg_hook := registry; pkg_payload := payload; trace := [] |}.

(** The scenario of the specification: secret [s3cr3t], a ping handler
    (handle 7), body [{'zen':'x'}]. *)
Definition pingHook : Webhook :=
  {| secret := "s3cr3t"; eventFuncs := {[ PingEvent := 7 ]} |}.
Definition openHook : Webhook :=
  {| secret := EmptyString; eventFuncs := {[ PingEvent := 7 ]} |}.
Definition zenBody : bytes := jsonText "{'zen':'x'}".

Definition pingRequest (signature : string) (body : bytes) : Http.Request :=
  request [("X-Github-Event", "ping"); ("X-Hub-Signature", signature)] body.

(** A ping without a signature header, a request without any header, a
    push (for which [pingHook] has no handler). *)
Definition unsignedPing : Http.Request := request [("X-Github-Event", "ping")] zenBody.
Definition noHeaders : Http.Request := request [] zenBody.
Definition unsignedPush : Http.Request := request [("X-Github-Event", "push")] zenBody.


(** [verify(S, B, presented)]: [verifySignature] on a registry with
    secret [S], hashing [B], against the presented header value. *)
Definition verify (S : string) (B : bytes) (presented : string) : Exec (option error) :=
  result
    (verifySignature {| secret := S; eventFuncs := ∅ |}
       (request [("X-Hub-Signature", presented)] []))
    (world {| secret := S; eventFuncs := ∅ |} B).

(** A ping whose body is not JSON at all, for a registry without secret. *)
Definition notJson : bytes := bytes_of_string "not json".
Definition notJsonPing : Http.Request := request [("X-Github-Event", "ping")] notJson.

(** A ping with the signature the sender computes over the body it
    sends, and one with the signature of the empty byte string. *)
Definition signedPing : Http.Request := pingRequest (sign "s3cr3t" zenBody) zenBody.
Definition emptySignedPing : Http.Request := pingRequest (sign "s3cr3t" []) zenBody.

(** A ping whose body breaks off with a read error after some bytes. *)
Definition brokenBodyPing : Http.Request :=
  {| Http.req_Header := Http.req_Header unsignedPing;
     Http.req_Body := {| Http.data := zenBody; Http.readErr := Some "unexpected EOF"%string |} |}.

(** A registry like [pingHook] with another secret. *)
Definition otherHook : Webhook :=
  {| secret := "0th3r"; eventFuncs := {[ PingEvent := 7 ]} |}.

(** * Properties *)

(** ** Worlds and traces *)
Section WorldFacts.
Context `{PayloadDecls}.

Lemma withTrace_id (w : World) : withTrace w (trace w) = w.
Proof. by destruct w. Qed.

Lemma withTrace_twice (w : World) (t u : list Effect) :
  withTrace (withTrace w t) u = withTrace w u.
Proof. reflexivity. Qed.

Lemma calls_app (t u : list Effect) : calls (t ++ u) = calls t ++ calls u.
Proof. unfold calls. apply omap_app. Qed.

Lemma responses_app (t u : list Effect) : responses (t ++ u) = responses t ++ responses u.
Proof. unfold responses. apply omap_app. Qed.

Lemma emit_run (e : Effect) (w : World) :
  emit e w = (Returned tt, withTrace w (trace w ++ [e])).
Proof. reflexivity. Qed.

Lemma bind_run {A B} (m : M A) (f : A -> M B) (w : World) :
  (m ≫= f) w = match m w with
               | (Returned a, w') => f a w'
               | (Panicked msg, w') => (Panicked msg, w')
               end.
Proof. reflexivity. Qed.

(** *** Append-only computations *)

Lemma appendOnly_ret {A} (a : A) : appendOnly (mret a).
Proof. intros w. exists (Returned a), []. intros t. by rewrite app_nil_r. Qed.

Lemma appendOnly_lift {A} (x : Exec A) : appendOnly (lift x).
Proof. intros w. exists x, []. intros t. by rewrite app_nil_r. Qed.

Lemma appendOnly_emit (e : Effect) : appendOnly (emit e).
Proof. intros w. exists (Returned tt), [e]. reflexivity. Qed.

Lemma appendOnly_pkg_hook : appendOnly (readWorld pkg_hook).
Proof. intros w. exists (Returned (pkg_hook w)), []. intros t. by rewrite app_nil_r. Qed.

Lemma appendOnly_pkg_payload : appendOnly (readWorld pkg_payload).
Proof. intros w. exists (Returned (pkg_payload w)), []. intros t. by rewrite app_nil_r. Qed.

Lemma appendOnly_bind {A B} (m : M A) (f : A -> M B) :
  appendOnly m -> (forall a, appendOnly (f a)) -> appendOnly (m ≫= f).
Proof.
  intros Hm Hf w. destruct (Hm w) as (o & d & Hmw).
  destruct o as [a|msg].
  - destruct (Hf a w) as (o' & d' & Hfw). exists o', (d ++ d'). intros t.
    rewrite bind_run, Hmw, Hfw. by rewrite app_assoc.
  - exists (Panicked msg), d. intros t. by rewrite bind_run, Hmw.
Qed.

Lemma appendOnly_run {A} (m : M A) (w : World) :
  appendOnly m ->
  exists o d, m w = (o, withTrace w (trace w ++ d)) /\
              forall t, m (withTrace w t) = (o, withTrace w (t ++ d)).
Proof.
  intros Hm. destruct (Hm w) as (o & d & Hw). exists o, d. split; [|done].
  rewrite <- (withTrace_id w) at 1. apply Hw.
Qed.
End WorldFacts.

Create HintDb appendOnly.

#[local] Hint Resolve appendOnly_ret appendOnly_lift appendOnly_emit appendOnly_pkg_hook
  appendOnly_pkg_payload : appendOnly.

Ltac appendOnly_step :=
  lazymatch goal with
  | |- appendOnly (_ ≫= _) => apply appendOnly_bind; [|intros ?]
  | |- appendOnly (if ?b then _ else _) => destruct b
  | |- appendOnly (match ?x with _ => _ end) => destruct x
  | |- appendOnly (let '(_, _) := ?x in _) => destruct x
  | |- appendOnly _ => solve [eauto with appendOnly]
  end.

Section FunctionFacts.
Context `{PayloadDecls}.

Lemma appendOnly_getGitHubEvent hook r : appendOnly (getGitHubEvent hook r).
Proof. unfold getGitHubEvent, webhooks_log, http_Error. repeat appendOnly_step. Qed.

Lemma appendOnly_verifySignature hook r : appendOnly (verifySignature hook r).
Proof. unfold verifySignature, webhooks_log, http_Error. repeat appendOnly_step. Qed.

Lemma appendOnly_readPayload hook r : appendOnly (readPayload hook r).
Proof.
  unfold readPayload, webhooks_log, http_Error.
  destruct (Http.ReadAll _). repeat appendOnly_step.
Qed.

Lemma appendOnly_getGitHubHandler ev : appendOnly (getGitHubHandler ev).
Proof. unfold getGitHubHandler. repeat appendOnly_step. Qed.

Lemma appendOnly_dispatch hook ev fn payload hd :
  appendOnly (dispatch hook ev fn payload hd).
Proof.
  unfold dispatch, caseBody, runProcessPayloadFunc.
  destruct (selectCase _ _); [destruct (Unmarshal _ _)|]; repeat appendOnly_step.
Qed.

Lemma appendOnly_ParsePayload hook r : appendOnly (ParsePayload hook r).
Proof.
  unfold ParsePayload, webhooks_log, Webhook_log.
  apply appendOnly_bind; [apply appendOnly_getGitHubEvent|intros [ev [e|]]];
    [appendOnly_step|].
  apply appendOnly_bind; [apply appendOnly_getGitHubHandler|intros [fn [e|]]];
    [appendOnly_step|].
  apply appendOnly_bind; [apply appendOnly_verifySignature|intros [e|]];
    [appendOnly_step|].
  apply appendOnly_bind; [apply appendOnly_readPayload|intros [payload [e|]]];
    [appendOnly_step|].
  apply appendOnly_dispatch.
Qed.
End FunctionFacts.

(** Runs the monadic plumbing of a goal, leaving library calls folded. *)
Ltac run_M_once :=
  cbv [mbind M_bind mret M_ret emit webhooks_log Webhook_log http_Error
       readWorld lift withTrace];
  cbn [trace pkg_hook pkg_payload fst snd String.length Nat.eqb Nat.ltb Nat.leb negb].

Ltac run_M := run_M_once; run_M_once.

Ltac finish_M := run_M; rewrite <- ?app_assoc; reflexivity.

(** ** The stages of the pipeline, case by case *)
Section Stages.
Context `{PayloadDecls}.
Implicit Types (hook : Webhook) (r : Http.Request) (w : World).

Local Abbreviation wlog := (LogLine webhooks_DefaultLog).
Local Abbreviation Wlog := (LogLine Webhook_DefaultLog).

Lemma length_zero_iff (s : string) : (String.length s =? 0)%nat = true <-> s = EmptyString.
Proof. destruct s; simpl; split; congruence. Qed.

Lemma length_pos_iff (s : string) : (0 <? String.length s)%nat = true <-> s <> EmptyString.
Proof. destruct s; simpl; split; (done || congruence). Qed.

Lemma getGitHubEvent_missing hook r w :
  Http.Get (Http.req_Header r) "X-GitHub-Event" = EmptyString ->
  getGitHubEvent hook r w =
    (Returned (EmptyString, Some "Missing X-GitHub-Event Header"%string),
     withTrace w (trace w ++
       [wlog Info "Parsing Payload...";
        HttpError "Missing X-GitHub-Event Header" Http.StatusBadRequest])).
Proof.
  intros Hev. unfold getGitHubEvent. rewrite Hev. finish_M.
Qed.

Lemma getGitHubEvent_present hook r w ev :
  Http.Get (Http.req_Header r) "X-GitHub-Event" = ev -> ev <> EmptyString ->
  getGitHubEvent hook r w =
    (Returned (ev, None),
     withTrace w (trace w ++
       [wlog Info "Parsing Payload..."; wlog Debug ("X-GitHub-Event:" ++ ev)])).
Proof.
  intros Hev Hne. unfold getGitHubEvent. rewrite Hev.
  destruct ev as [|c ev]; [done|]. finish_M.
Qed.

Lemma getGitHubHandler_unregistered w ev :
  eventFuncs (pkg_hook w) !! ev = None ->
  getGitHubHandler ev w = (Returned (None, Some (notRegistered ev)), w).
Proof. intros Hev. unfold getGitHubHandler. run_M. by rewrite Hev. Qed.

Lemma getGitHubHandler_registered w ev fn :
  eventFuncs (pkg_hook w) !! ev = Some fn ->
  getGitHubHandler ev w = (Returned (Some fn, None), w).
Proof. intros Hev. unfold getGitHubHandler. run_M. by rewrite Hev. Qed.

Lemma readPayload_failed hook r w :
  Http.readErr (Http.req_Body r) <> None \/ Http.data (Http.req_Body r) = [] ->
  readPayload hook r w =
    (Returned ([], Some "Issue reading Payload"%string),
     withTrace w (trace w ++
       [wlog Error "Issue reading Payload";
        HttpError "Issue reading Payload" Http.StatusInternalServerError])).
Proof.
  intros Hbad. unfold readPayload, Http.ReadAll.
  assert ((bool_decide (Http.readErr (Http.req_Body r) <> None)
           || (List.length (Http.data (Http.req_Body r)) =? 0)%nat)%bool = true) as ->.
  { destruct Hbad as [He|Hd].
    - by rewrite bool_decide_eq_true_2.
    - rewrite Hd. apply orb_true_r. }
  finish_M.
Qed.

Lemma readPayload_read hook r w :
  Http.readErr (Http.req_Body r) = None -> Http.data (Http.req_Body r) <> [] ->
  readPayload hook r w =
    (Returned (Http.data (Http.req_Body r), None),
     withTrace w (trace w ++
       [wlog Debug ("Payload:" ++ string_of_bytes (Http.data (Http.req_Body r)))])).
Proof.
  intros He Hd. unfold readPayload, Http.ReadAll. rewrite He.
  destruct (Http.data (Http.req_Body r)) as [|b bs]; [done|]. finish_M.
Qed.

Lemma verifySignature_unsecured hook r w :
  secret hook = EmptyString -> verifySignature hook r w = (Returned None, w).
Proof. intros Hs. unfold verifySignature. by rewrite Hs. Qed.

Lemma verifySignature_missing hook r w :
  secret hook <> EmptyString ->
  Http.Get (Http.req_Header r) "X-Hub-Signature" = EmptyString ->
  verifySignature hook r w =
    (Returned (Some "Missing X-Hub-Signature required for HMAC verification"%string),
     withTrace w (trace w ++
       [wlog Info "Checking secret";
        wlog Error "Missing X-Hub-Signature required for HMAC verification";
        HttpError "Missing X-Hub-Signature required for HMAC verification"
          Http.StatusForbidden])).
Proof.
  intros Hs Hsig. unfold verifySignature. rewrite Hsig.
  apply length_pos_iff in Hs. rewrite Hs. finish_M.
Qed.

(** With a secret and a non-empty header, the outcome is decided by
    the slice [signature[5:]] and the comparison. *)
Lemma verifySignature_present hook r w sig :
  secret hook <> EmptyString ->
  Http.Get (Http.req_Header r) "X-Hub-Signature" = sig -> sig <> EmptyString ->
  verifySignature hook r w =
    let seen := [wlog Info "Checking secret"; wlog Debug ("X-Hub-Signature:" ++ sig)] in
    match sliceFrom sig 5 with
    | Panicked msg => (Panicked msg, withTrace w (trace w ++ seen))
    | Returned presented =>
        if HmacEqual.Equal (bytes_of_string presented)
             (bytes_of_string
                (Hex.EncodeToString
                   (Hmac.Sum (bytes_of_string (secret hook)) (pkg_payload w))))
        then (Returned None, withTrace w (trace w ++ seen))
        else (Returned (Some "HMAC verification failed"%string),
              withTrace w (trace w ++ seen ++
                [wlog Error "HMAC verification failed";
                 HttpError "HMAC verification failed" Http.StatusForbidden]))
    end.
Proof.
  intros Hs Hsig Hne. unfold verifySignature. rewrite Hsig.
  apply length_pos_iff in Hs. rewrite Hs.
  assert ((String.length sig =? 0)%nat = false) as ->.
  { destruct sig; [done|reflexivity]. }
  run_M. destruct (sliceFrom sig 5) as [presented|msg]; [|finish_M].
  destruct (HmacEqual.Equal _ _); cbn [negb]; finish_M.
Qed.
End Stages.

(** ** Test vectors for the library functions *)

Example sha1_abc :
  Hex.EncodeToString (Sha1.Sum (bytes_of_string "abc"))
  = "a9993e364706816aba3e25717850c26c9cd0d89d"%string.
Proof. vm_compute. reflexivity. Qed.

Example sha1_empty :
  Hex.EncodeToString (Sha1.Sum []) = "da39a3ee5e6b4b0d3255bfef95601890afd80709"%string.
Proof. vm_compute. reflexivity. Qed.

Example sha1_two_blocks :
  Hex.EncodeToString
    (Sha1.Sum (bytes_of_string "abcdbcdecdefdefgefghfghighijhijkijkljklmklmnlmnomnopnopq"))
  = "84983e441c3bd26ebaae4aa1f95129e5e54670f1"%string.
Proof. vm_compute. reflexivity. Qed.

Example hmac_sha1_rfc2202_2 :
  Hex.EncodeToString
    (Hmac.Sum (bytes_of_string "Jefe") (bytes_of_string "what do ya want for nothing?"))
  = "effcdf6ae5eb2fa2d27416d5f184df9c259a7c79"%string.
Proof. vm_compute. reflexivity. Qed.

Example hmac_sha1_rfc2202_1 :
  Hex.EncodeToString (Hmac.Sum (repeat x0b 20) (bytes_of_string "Hi There"))
  = "b617318655057264e28bc0b6fb378c8ef146be00"%string.
Proof. vm_compute. reflexivity. Qed.

Example hmac_sha1_rfc2202_6 :
  Hex.EncodeToString
    (Hmac.Sum (repeat xaa 80)
       (bytes_of_string "Test Using Larger Than Block-Size Key - Hash Key First"))
  = "aa4ae5e15272d00e95705637ce8a3b55ed402112"%string.
Proof. vm_compute. reflexivity. Qed.

Example json_ok : Json.Valid (jsonText "{'zen':'x', 'n': [1, -2.5e3, true, null, {}]}") = true.
Proof. vm_compute. reflexivity. Qed.
Example json_verdicts :
  map (fun s => Json.Valid (jsonText s))
    ["not json"; "{"; "{} x"; "01"; "[1,]"; "{'a':}"; "tru"; "-"; "{,}"; "1 2";
     "'a\qb'"; "'\u12a'"; "{'a':1,}"]
  = repeat false 13 /\
  map (fun s => Json.Valid (jsonText s))
    ["1"; "1e5"; "[]"; "[ ]"; "{ }"; "'a\nb'"; "'\u12ab'"; " null ";
     "{'a':1,'b':[{'c':false}]} "]
  = repeat true 9 /\
  Json.Valid [] = false.
Proof. vm_compute. repeat split. Qed.

(** The scenario of the specification, with a package-level [payload]
    that holds the body: the signature verifies and the ping handler is
    called once, with the decoded body and the request's headers. *)
Example scenario_ping :
  ParsePayload pingHook signedPing (world pingHook zenBody)
  = (Returned tt,
     withTrace (world pingHook zenBody)
       [LogLine webhooks_DefaultLog Info "Parsing Payload...";
        LogLine webhooks_DefaultLog Debug "X-GitHub-Event:ping";
        LogLine webhooks_DefaultLog Info "Checking secret";
        LogLine webhooks_DefaultLog Debug
          "X-Hub-Signature:sha1=45bf6880269248fc662957d4c9b60f6fffd0293a";
        LogLine webhooks_DefaultLog Debug ("Payload:" ++ string_of_bytes zenBody);
        Call 7 (Iface PingPayload (Some zenBody)) (Http.req_Header signedPing)]).
Proof. vm_compute. reflexivity. Qed.

(** ** Library facts: bytes, hex, SHA-1 output size, constant-time compare *)

Lemma Z_of_byte_range (b : byte) : (0 <= Z_of_byte b < 256)%Z.
Proof. unfold Z_of_byte. pose proof (Byte.to_N_bounded b). lia. Qed.

Lemma Z_of_byte_inj (a b : byte) : Z_of_byte a = Z_of_byte b -> a = b.
Proof.
  unfold Z_of_byte. intros Hab. apply N2Z.inj in Hab.
  pose proof (Byte.of_to_N a) as Ha. rewrite Hab, Byte.of_to_N in Ha. congruence.
Qed.

Lemma bytes_of_string_inj (s t : string) : bytes_of_string s = bytes_of_string t -> s = t.
Proof.
  unfold bytes_of_string. intros Hst.
  rewrite <- (string_of_list_byte_of_string s), <- (string_of_list_byte_of_string t).
  by rewrite Hst.
Qed.

Lemma hex_decodePair (v : byte) :
  Hex.decodePair (Hex.digit (Z.shiftr (Z_of_byte v) 4))
                 (Hex.digit (Z.land (Z_of_byte v) 0x0f)) = v.
Proof. destruct v; vm_compute; reflexivity. Qed.

Lemma hex_EncodeToString_inj (x y : bytes) :
  Hex.EncodeToString x = Hex.EncodeToString y -> x = y.
Proof.
  revert y. induction x as [|a x IH]; intros [|b y] Hxy; simpl in Hxy; try done.
  injection Hxy as Hhi Hlo Hrest. f_equal; [|by apply IH].
  rewrite <- (hex_decodePair a), <- (hex_decodePair b). by rewrite Hhi, Hlo.
Qed.

Lemma sha1_checkSum_length (d : Sha1.digest) : List.length (Sha1.checkSum d) = Sha1.Size.
Proof. reflexivity. Qed.

Lemma sha1_Sum_length (data : bytes) : List.length (Sha1.Sum data) = 20.
Proof. apply sha1_checkSum_length. Qed.

Lemma hmac_Sum_length (key message : bytes) : List.length (Hmac.Sum key message) = 20.
Proof. apply sha1_Sum_length. Qed.

(** *** [subtle.ConstantTimeCompare] decides equality *)

Lemma isU8_range (v : Z) : isU8 v <-> (0 <= v < 256)%Z.
Proof.
  unfold isU8. change 255%Z with (Z.ones 8). rewrite Z.land_ones by lia.
  change (2 ^ 8)%Z with 256%Z. split.
  - intros <-. apply Z.mod_pos_bound. lia.
  - intros Hv. by apply Z.mod_small.
Qed.

Lemma isU8_byte (b : byte) : isU8 (Z_of_byte b).
Proof. apply isU8_range, Z_of_byte_range. Qed.

Lemma isU8_lxor (a b : Z) : isU8 a -> isU8 b -> isU8 (Z.lxor a b).
Proof.
  unfold isU8. intros Ha Hb. rewrite <- Ha, <- Hb at 2. rewrite <- Ha, <- Hb at 1.
  apply Z.bits_inj'. intros n _.
  rewrite !Z.land_spec, !Z.lxor_spec, !Z.land_spec.
  by destruct (Z.testbit a n), (Z.testbit b n), (Z.testbit 255 n).
Qed.

Lemma isU8_lor (a b : Z) : isU8 a -> isU8 b -> isU8 (Z.lor a b).
Proof.
  unfold isU8. intros Ha Hb. rewrite Z.land_lor_distr_l. by rewrite Ha, Hb.
Qed.

Lemma accumulate_spec (x y : bytes) (v : Z) :
  List.length x = List.length y -> isU8 v ->
  isU8 (Subtle.accumulate v x y) /\
  (Subtle.accumulate v x y = 0%Z <-> v = 0%Z /\ x = y).
Proof.
  revert y v. induction x as [|a x IH]; intros [|b y] v Hlen Hv; simpl in *; try done.
  - split; [done|]. split; [by intros ->|by intros [-> _]].
  - injection Hlen as Hlen.
    assert (isU8 (Z.lor v (Z.lxor (Z_of_byte a) (Z_of_byte b)))) as Hv'.
    { apply isU8_lor; [done|]. apply isU8_lxor; apply isU8_byte. }
    destruct (IH y _ Hlen Hv') as [Hr Hz]. split; [done|].
    rewrite Hz, Z.lor_eq_0_iff. split.
    + intros [[-> Hab] ->]. apply Z.lxor_eq, Z_of_byte_inj in Hab. by subst.
    + intros [-> [= -> ->]]. by rewrite Z.lxor_nilpotent.
Qed.

Lemma ConstantTimeByteEq_zero (v : Z) :
  isU8 v -> Subtle.ConstantTimeByteEq v 0 = 1%Z <-> v = 0%Z.
Proof.
  intros Hv%isU8_range. unfold Subtle.ConstantTimeByteEq. rewrite Z.lxor_0_r. split.
  - intros Heq. destruct (decide (v = 0%Z)) as [|Hne]; [done|]. exfalso.
    change 0xFFFFFFFF%Z with (Z.ones 32) in Heq.
    rewrite Z.land_ones, Z.mod_small, Z.shiftr_div_pow2, Z.div_small in Heq by lia.
    discriminate.
  - intros ->. reflexivity.
Qed.

Lemma hmac_Equal_spec (x y : bytes) : HmacEqual.Equal x y = true <-> x = y.
Proof.
  unfold HmacEqual.Equal, Subtle.ConstantTimeCompare. rewrite Z.eqb_eq.
  destruct (List.length x =? List.length y)%nat eqn:Hlen; simpl.
  - apply Nat.eqb_eq in Hlen.
    assert (isU8 0) as H0 by reflexivity.
    destruct (accumulate_spec x y 0 Hlen H0) as [Hr Hz].
    rewrite (ConstantTimeByteEq_zero _ Hr), Hz.
    split; [by intros [_ ->]|by intros ->].
  - apply Nat.eqb_neq in Hlen. split; [done|]. intros ->. done.
Qed.

(** *** Slicing *)

Lemma substring_all (s : string) : String.substring 0 (String.length s) s = s.
Proof. induction s as [|c s IH]; simpl; [done|]. by rewrite IH. Qed.

Lemma sliceFrom_prefix5 (c1 c2 c3 c4 c5 : ascii) (s : string) :
  sliceFrom (String c1 (String c2 (String c3 (String c4 (String c5 s))))) 5 = Returned s.
Proof.
  unfold sliceFrom. cbn [String.length Nat.leb Nat.sub String.substring].
  by rewrite Nat.sub_0_r, substring_all.
Qed.

Lemma sliceFrom_Returned (s : string) (n : nat) :
  n <= String.length s -> exists t, sliceFrom s n = Returned t.
Proof.
  intros Hn. unfold sliceFrom. apply Nat.leb_le in Hn. rewrite Hn. eauto.
Qed.

Lemma sliceFrom_Panicked (s : string) (n : nat) :
  String.length s < n ->
  sliceFrom s n = Panicked "runtime error: slice bounds out of range".
Proof.
  intros Hn. unfold sliceFrom. apply Nat.leb_gt in Hn. by rewrite Hn.
Qed.

Lemma sliceFrom_sign (S : string) (B : bytes) :
  sliceFrom (sign S B) 5 = Returned (Hex.EncodeToString (Hmac.Sum (bytes_of_string S) B)).
Proof. unfold sign. apply sliceFrom_prefix5. Qed.

Lemma sign_nonempty (S : string) (B : bytes) : sign S B <> EmptyString.
Proof. done. Qed.

(** ** The switch and the vocabulary *)

Lemma switch_labels : concat (map fst switchCases) = vocabulary.
Proof. reflexivity. Qed.

Lemma selectCase_None_iff cases (ev : Event) :
  selectCase cases ev = None <-> ev ∉ concat (map fst cases).
Proof.
  induction cases as [|[labels T] cases IH]; simpl.
  - split; [intros _; apply not_elem_of_nil|done].
  - rewrite elem_of_app. destruct (existsb (String.eqb ev) labels) eqn:Hex.
    + apply existsb_exists in Hex as (l & Hin & Heq%String.eqb_eq). subst l.
      apply list_elem_of_In in Hin. split; [done|]. intros Hn. destruct Hn. by left.
    + rewrite IH. split.
      * intros Hn [Hl|Hr]; [|done].
        apply list_elem_of_In in Hl.
        assert (existsb (String.eqb ev) labels = true) as Htrue.
        { apply existsb_exists. exists ev. split; [done|apply String.eqb_refl]. }
        congruence.
      * intros Hn Hr. apply Hn. by right.
Qed.

Lemma selectCase_outside_vocabulary (ev : Event) :
  ev ∉ vocabulary -> selectCase switchCases ev = None.
Proof. intros Hev. apply selectCase_None_iff. by rewrite switch_labels. Qed.

Lemma selectCase_inside_vocabulary (ev : Event) :
  ev ∈ vocabulary -> exists T, selectCase switchCases ev = Some T.
Proof.
  intros Hev. destruct (selectCase switchCases ev) as [T|] eqn:Hsel; [eauto|].
  apply selectCase_None_iff in Hsel. by rewrite switch_labels in Hsel.
Qed.

(** ** From the first stage to the switch *)
Section Path.
Context `{PayloadDecls}.
Implicit Types (hook : Webhook) (r : Http.Request) (w : World).

Local Abbreviation wlog := (LogLine webhooks_DefaultLog).
Local Abbreviation Wlog := (LogLine Webhook_DefaultLog).

Lemma result_withTrace {A} (m : M A) w t :
  appendOnly m -> result m (withTrace w t) = result m w.
Proof.
  intros Hm. destruct (appendOnly_run m w Hm) as (o & d & Hw & Ht).
  unfold result. by rewrite Hw, Ht.
Qed.

(** A verification that lets the request through writes no response
    and calls nothing. *)
Lemma verifySignature_passed hook r w :
  result (verifySignature hook r) w = Returned None ->
  exists dv, calls dv = [] /\ responses dv = [] /\
    forall t, verifySignature hook r (withTrace w t) = (Returned None, withTrace w (t ++ dv)).
Proof.
  unfold result. intros Hres.
  destruct (decide (secret hook = EmptyString)) as [Hs|Hs].
  { exists []. do 2 (split; [done|]). intros t.
    rewrite verifySignature_unsecured by done. by rewrite app_nil_r. }
  destruct (decide (Http.Get (Http.req_Header r) "X-Hub-Signature" = EmptyString))
    as [Hsig|Hsig].
  { rewrite verifySignature_missing in Hres by done. discriminate. }
  rewrite (verifySignature_present hook r w _ Hs eq_refl Hsig) in Hres.
  exists [wlog Info "Checking secret";
          wlog Debug ("X-Hub-Signature:" ++ Http.Get (Http.req_Header r) "X-Hub-Signature")].
  do 2 (split; [done|]). intros t.
  rewrite (verifySignature_present hook r _ _ Hs eq_refl Hsig).
  cbn [pkg_payload withTrace trace] in *.
  destruct (sliceFrom _ 5) as [presented|msg]; [|discriminate].
  destruct (HmacEqual.Equal _ _); [|discriminate]. reflexivity.
Qed.

Lemma ParsePayload_to_switch hook r w ev fn :
  Http.Get (Http.req_Header r) "X-GitHub-Event" = ev -> ev <> EmptyString ->
  eventFuncs (pkg_hook w) !! ev = Some fn ->
  result (verifySignature hook r) w = Returned None ->
  Http.readErr (Http.req_Body r) = None -> Http.data (Http.req_Body r) <> [] ->
  exists pre, calls pre = [] /\ responses pre = [] /\
    ParsePayload hook r w =
      dispatch hook ev (Some fn) (Http.data (Http.req_Body r)) (Http.req_Header r)
        (withTrace w (trace w ++ pre)).
Proof.
  intros Hev Hne Hfn Hver Herr Hdata.
  destruct (verifySignature_passed hook r w Hver) as (dv & Hc & Hr & Hrun).
  exists ([wlog Info "Parsing Payload..."; wlog Debug ("X-GitHub-Event:" ++ ev)] ++ dv ++
          [wlog Debug ("Payload:" ++ string_of_bytes (Http.data (Http.req_Body r)))]).
  split; [|split].
  - by rewrite !calls_app, Hc.
  - by rewrite !responses_app, Hr.
  - unfold ParsePayload.
    rewrite bind_run, (getGitHubEvent_present hook r w ev Hev Hne).
    rewrite bind_run, (getGitHubHandler_registered _ ev fn) by done.
    rewrite bind_run, Hrun.
    rewrite bind_run, readPayload_read by done.
    cbn [trace withTrace]. by rewrite <- !app_assoc.
Qed.
End Path.

(** ** The switch on a token of the vocabulary *)
Section Switch.
Context `{PayloadDecls}.

Lemma dispatch_known (hook : Webhook) (ev : Event) (T : PayloadType)
    (fn : ProcessPayloadFunc) (payload : bytes) (hd : Http.Header) (w : World) :
  selectCase switchCases ev = Some T ->
  dispatch hook ev (Some fn) payload hd w =
    (Returned tt,
     withTrace w (trace w ++ [Call fn (Iface T (fst (Unmarshal T payload))) hd])).
Proof.
  intros Hsel. unfold dispatch, caseBody. rewrite Hsel.
  by destruct (Unmarshal T payload).
Qed.

Lemma Unmarshal_invalid (T : PayloadType) (data : bytes) :
  Json.Valid data = false -> fst (Unmarshal T data) = zeroValue T.
Proof.
  unfold Json.Valid, Unmarshal. by destruct (Json.checkValid data).
Qed.
End Switch.

(** ** HMAC-SHA1 is not injective *)

Lemma all_bytes_NoDup : NoDup all_bytes.
Proof. apply (bool_decide_unpack _). vm_compute. exact I. Qed.

Lemma all_bytes_complete (b : byte) : b ∈ all_bytes.
Proof. apply (bool_decide_unpack _). destruct b; vm_compute; exact I. Qed.

#[global] Instance byte_finite : Finite byte :=
  {| enum := all_bytes; NoDup_enum := all_bytes_NoDup; elem_of_enum := all_bytes_complete |}.

Lemma card_byte : card byte = 256.
Proof. vm_compute. reflexivity. Qed.

Lemma take_vec_to_list (n : nat) (l : bytes) :
  List.length l = n -> vec_to_list (take_vec n l) = l.
Proof.
  revert l. induction n as [|n IH]; intros [|a l] Hlen; simpl in *; try done.
  f_equal. apply IH. lia.
Qed.

(** More bodies of 21 bytes than digests of 20 bytes: under any key two
    different bodies have the same HMAC-SHA1. *)
Lemma hmac_collision (key : bytes) :
  exists B B' : bytes, B' <> B /\ Hmac.Sum key B' = Hmac.Sum key B.
Proof.
  destruct (finite_pigeonhole
              (fun v : vec byte 21 => take_vec 20 (Hmac.Sum key (vec_to_list v))))
    as (v1 & v2 & Hne & Heq).
  - rewrite !vec_card, card_byte. apply Nat.pow_lt_mono_r; lia.
  - exists (vec_to_list v2), (vec_to_list v1). split.
    + intros Hl. apply Hne. symmetry. by apply vec_to_list_inj2.
    + apply (f_equal vec_to_list) in Heq.
      rewrite !take_vec_to_list in Heq by apply hmac_Sum_length. done.
Qed.

(** ** Verification against a signature made by [sign] *)
Section Signed.
Context `{PayloadDecls}.

Lemma Equal_hex_iff (x y : bytes) :
  HmacEqual.Equal (bytes_of_string (Hex.EncodeToString x))
                  (bytes_of_string (Hex.EncodeToString y)) = true <-> x = y.
Proof.
  rewrite hmac_Equal_spec. split.
  - intros Heq. by apply hex_EncodeToString_inj, bytes_of_string_inj.
  - by intros ->.
Qed.

Lemma verifySignature_signed (hook : Webhook) (r : Http.Request) (w : World) (B' : bytes) :
  secret hook <> EmptyString ->
  Http.Get (Http.req_Header r) "X-Hub-Signature" = sign (secret hook) B' ->
  verifySignature hook r w =
    let key := bytes_of_string (secret hook) in
    let seen := [LogLine webhooks_DefaultLog Info "Checking secret";
                 LogLine webhooks_DefaultLog Debug
                   ("X-Hub-Signature:" ++ sign (secret hook) B')] in
    if decide (Hmac.Sum key B' = Hmac.Sum key (pkg_payload w))
    then (Returned None, withTrace w (trace w ++ seen))
    else (Returned (Some "HMAC verification failed"%string),
          withTrace w (trace w ++ seen ++
            [LogLine webhooks_DefaultLog Error "HMAC verification failed";
             HttpError "HMAC verification failed" Http.StatusForbidden])).
Proof.
  intros Hs Hsig.
  rewrite (verifySignature_present hook r w _ Hs Hsig (sign_nonempty _ _)).
  rewrite sliceFrom_sign. cbv zeta.
  destruct (decide _) as [Heq|Hne].
  - apply Equal_hex_iff in Heq. rewrite Heq. reflexivity.
  - destruct (HmacEqual.Equal _ _) eqn:Hcmp; [|reflexivity].
    apply Equal_hex_iff in Hcmp. contradiction.
Qed.
End Signed.

Lemma Get_single (key value : string) :
  Http.CanonicalMIMEHeaderKey key = key ->
  Http.Get (Http.req_Header (request [(key, value)] [])) key = value.
Proof.
  intros Hkey. unfold Http.Get, request. cbn [Http.req_Header map fst snd list_to_map foldr].
  rewrite Hkey. cbn [uncurry fst snd]. by rewrite lookup_insert_eq.
Qed.

Lemma verify_signed (S : string) (B B' : bytes) :
  S <> EmptyString ->
  verify S B (sign S B') =
    if decide (Hmac.Sum (bytes_of_string S) B' = Hmac.Sum (bytes_of_string S) B)
    then Returned None
    else Returned (Some "HMAC verification failed"%string).
Proof.
  intros HS. unfold verify, result.
  rewrite (verifySignature_signed _ _ _ B'); [|done|by apply Get_single].
  cbn [secret pkg_payload world]. destruct (decide _); reflexivity.
Qed.

(** * The claims *)

(** C1. The code at the failing input: the registry of the
    specification's scenario (secret [s3cr3t], a ping handler), the body
    [{'zen':'x'}], and a package-level [payload] that holds no bytes.
    [verifySignature] runs before the body is read and never looks at it;
    the request signed over its own body is refused with 403; the request
    signed over the empty byte string is accepted, and its body, over
    which no signature was checked, is decoded and handed to the
    handler. *)
Theorem C1_signature_is_not_checked_over_the_decoded_bytes :
  (forall hook h b b' w,
     verifySignature hook {| Http.req_Header := h; Http.req_Body := b |} w
     = verifySignature hook {| Http.req_Header := h; Http.req_Body := b' |} w) /\
  (responses (appended (ParsePayload pingHook signedPing) (world pingHook []))
     = [("HMAC verification failed"%string, Http.StatusForbidden)] /\
   calls (appended (ParsePayload pingHook signedPing) (world pingHook [])) = []) /\
  (responses (appended (ParsePayload pingHook emptySignedPing) (world pingHook [])) = [] /\
   calls (appended (ParsePayload pingHook emptySignedPing) (world pingHook []))
     = [(7, Iface PingPayload (Some zenBody), Http.req_Header emptySignedPing)]).
Proof.
  split; [reflexivity|]. split; split; vm_compute; reflexivity.
Qed.

(** C2, as stated, fails: a ping whose body is the text [not json]
    is not valid JSON, yet no error is reported and the handler is
    called, with a PingPayload that was left as declared. *)
Lemma C2_counterexample :
  Json.Valid notJson = false /\
  ParsePayload openHook notJsonPing (world openHook [])
  = (Returned tt,
     withTrace (world openHook [])
       [LogLine webhooks_DefaultLog Info "Parsing Payload...";
        LogLine webhooks_DefaultLog Debug "X-GitHub-Event:ping";
        LogLine webhooks_DefaultLog Debug "Payload:not json";
        Call 7 (Iface PingPayload (zeroValue PingPayload)) (Http.req_Header notJsonPing)]).
Proof. split; vm_compute; reflexivity. Qed.

(** C2, amended. For a request that reaches the body read (its token is
    in the vocabulary and has a handler, verification let it through,
    the read reports no error) and whose body is not valid JSON: an
    empty body fails with the read error, status 500, and no handler is
    called; a non-empty body raises no error at all: the decoder's error
    is dropped and the handler is called once, with the zero value of
    the token's payload type. *)
Theorem C2_body_that_is_not_json `{PayloadDecls}
    (hook : Webhook) (r : Http.Request) (w : World) (ev : Event)
    (fn : ProcessPayloadFunc) (T : PayloadType) :
  result (getGitHubEvent hook r) w = Returned (ev, None) ->
  eventFuncs (pkg_hook w) !! ev = Some fn ->
  selectCase switchCases ev = Some T ->
  result (verifySignature hook r) w = Returned None ->
  Http.readErr (Http.req_Body r) = None ->
  Json.Valid (Http.data (Http.req_Body r)) = false ->
  exists d,
    ParsePayload hook r w = (Returned tt, withTrace w (trace w ++ d)) /\
    (Http.data (Http.req_Body r) = [] ->
       calls d = [] /\
       responses d = [("Issue reading Payload"%string, Http.StatusInternalServerError)]) /\
    (Http.data (Http.req_Body r) <> [] ->
       calls d = [(fn, Iface T (zeroValue T), Http.req_Header r)] /\ responses d = []).
Proof.
  intros Hev Hfn Hsel Hver Herr Hbad.
  assert (Http.Get (Http.req_Header r) "X-GitHub-Event" = ev /\ ev <> EmptyString)
    as [Hget Hne].
  { unfold result in Hev.
    destruct (decide (Http.Get (Http.req_Header r) "X-GitHub-Event" = EmptyString))
      as [He|He].
    - rewrite getGitHubEvent_missing in Hev by done. discriminate.
    - rewrite (getGitHubEvent_present hook r w _ eq_refl He) in Hev.
      simpl in Hev. injection Hev as <-. done. }
  destruct (decide (Http.data (Http.req_Body r) = [])) as [Hd|Hd].
  - destruct (verifySignature_passed hook r w Hver) as (dv & Hc & Hr & Hrun).
    exists ([LogLine webhooks_DefaultLog Info "Parsing Payload...";
             LogLine webhooks_DefaultLog Debug ("X-GitHub-Event:" ++ ev)] ++ dv ++
            [LogLine webhooks_DefaultLog Error "Issue reading Payload";
             HttpError "Issue reading Payload" Http.StatusInternalServerError;
             LogLine Webhook_DefaultLog Debug "Issue reading Payload"]).
    split; [|split; [|done]].
    + unfold ParsePayload.
      rewrite bind_run, (getGitHubEvent_present hook r w ev Hget Hne).
      rewrite bind_run, (getGitHubHandler_registered _ ev fn) by done.
      rewrite bind_run, Hrun.
      rewrite bind_run, readPayload_failed by (by right).
      finish_M.
    + intros _. by rewrite !calls_app, !responses_app, Hc, Hr.
  - destruct (ParsePayload_to_switch hook r w ev fn Hget Hne Hfn Hver Herr Hd)
      as (pre & Hc & Hr & Hrun).
    eexists. split; [|split; [done|]].
    + rewrite Hrun, (dispatch_known hook ev T) by done.
      cbn [trace withTrace]. rewrite <- app_assoc. reflexivity.
    + intros _. rewrite calls_app, responses_app, Hc, Hr.
      by rewrite Unmarshal_invalid.
Qed.

Lemma C2_witness :
  exists d,
    ParsePayload openHook notJsonPing (world openHook [])
      = (Returned tt, withTrace (world openHook []) ([] ++ d)) /\
    (notJson = [] ->
       calls d = [] /\
       responses d = [("Issue reading Payload"%string, Http.StatusInternalServerError)]) /\
    (notJson <> [] ->
       calls d = [(7, Iface PingPayload (zeroValue PingPayload), Http.req_Header notJsonPing)]
       /\ responses d = []).
Proof.
  apply (C2_body_that_is_not_json openHook notJsonPing (world openHook []) "ping" 7 PingPayload).
  - vm_compute. reflexivity.
  - vm_compute. reflexivity.
  - vm_compute. reflexivity.
  - vm_compute. reflexivity.
  - reflexivity.
  - vm_compute. reflexivity.
Defined.

(** C3, as stated, fails in its second half: it is not so that
    verification of [B] against the signature computed over any other
    body is refused. Under the secret [s3cr3t] two different bodies have
    the same HMAC-SHA1, and for them verification succeeds. *)
Lemma C3_counterexample :
  ~ (forall (S : string) (B B' : bytes),
       S <> EmptyString -> B' <> B ->
       verify S B (sign S B') = Returned (Some "HMAC verification failed"%string)).
Proof.
  intros Hclaim.
  destruct (hmac_collision (bytes_of_string "s3cr3t")) as (B & B' & Hne & Heq).
  assert ("s3cr3t"%string <> EmptyString) as HS by discriminate.
  specialize (Hclaim "s3cr3t"%string B B' HS Hne).
  rewrite (verify_signed _ _ _ HS), (decide_True _ _ Heq) in Hclaim.
  discriminate Hclaim.
Qed.

(** C3, amended. With a non-empty secret S and a presented signature
    [sha1=] followed by the hex-encoded HMAC-SHA1 under S of some body
    B': verification succeeds when that digest equals the digest of the
    bytes B that [verifySignature] hashes, so always when B' = B; it fails
    with the signature-mismatch error, reported with status 403, when
    the two digests differ. *)
Theorem C3_verification_against_signed_digest `{PayloadDecls}
    (hook : Webhook) (r : Http.Request) (w : World) (B' : bytes) :
  secret hook <> EmptyString ->
  Http.Get (Http.req_Header r) "X-Hub-Signature" = sign (secret hook) B' ->
  let key := bytes_of_string (secret hook) in
  let seen := [LogLine webhooks_DefaultLog Info "Checking secret";
               LogLine webhooks_DefaultLog Debug
                 ("X-Hub-Signature:" ++ sign (secret hook) B')] in
  (Hmac.Sum key B' = Hmac.Sum key (pkg_payload w) ->
     verifySignature hook r w = (Returned None, withTrace w (trace w ++ seen))) /\
  (B' = pkg_payload w ->
     verifySignature hook r w = (Returned None, withTrace w (trace w ++ seen))) /\
  (Hmac.Sum key B' <> Hmac.Sum key (pkg_payload w) ->
     verifySignature hook r w =
       (Returned (Some "HMAC verification failed"%string),
        withTrace w (trace w ++ seen ++
          [LogLine webhooks_DefaultLog Error "HMAC verification failed";
           HttpError "HMAC verification failed" Http.StatusForbidden]))).
Proof.
  intros Hs Hsig key seen.
  rewrite (verifySignature_signed hook r w B' Hs Hsig). cbv zeta. fold key.
  split; [|split].
  - intros Heq. rewrite (decide_True _ _ Heq). reflexivity.
  - intros ->. rewrite (decide_True _ _ eq_refl). reflexivity.
  - intros Hne. rewrite (decide_False _ _ Hne). reflexivity.
Qed.

Lemma C3_witness :
  verifySignature pingHook signedPing (world pingHook zenBody)
  = (Returned None,
     withTrace (world pingHook zenBody)
       [LogLine webhooks_DefaultLog Info "Checking secret";
        LogLine webhooks_DefaultLog Debug ("X-Hub-Signature:" ++ sign "s3cr3t" zenBody)]).
Proof.
  apply (C3_verification_against_signed_digest pingHook signedPing
           (world pingHook zenBody) zenBody).
  - discriminate.
  - vm_compute. reflexivity.
  - reflexivity.
Defined.

(** C4. With a secret configured and a presented X-Hub-Signature value
    that is non-empty but shorter than 5 characters, [signature[5:]]
    slices past the end: [verifySignature] panics, after its two log
    lines and before any comparison or error response, instead of
    returning an error. For every other presented value (empty, or of
    length at least 5) it returns. *)
Theorem C4_short_signature_panics `{PayloadDecls}
    (hook : Webhook) (r : Http.Request) (w : World) (sig : string) :
  secret hook <> EmptyString ->
  Http.Get (Http.req_Header r) "X-Hub-Signature" = sig ->
  (0 < String.length sig < 5 ->
     verifySignature hook r w =
       (Panicked "runtime error: slice bounds out of range",
        withTrace w (trace w ++
          [LogLine webhooks_DefaultLog Info "Checking secret";
           LogLine webhooks_DefaultLog Debug ("X-Hub-Signature:" ++ sig)]))) /\
  (~ 0 < String.length sig < 5 ->
     exists res w', verifySignature hook r w = (Returned res, w')).
Proof.
  intros Hs Hsig. split.
  - intros [Hpos Hlt].
    assert (sig <> EmptyString) as Hne by (destruct sig; simpl in *; [lia|done]).
    rewrite (verifySignature_present hook r w sig Hs Hsig Hne).
    by rewrite sliceFrom_Panicked.
  - intros Hlen. destruct (decide (sig = EmptyString)) as [->|Hne].
    + rewrite verifySignature_missing by done. eauto.
    + rewrite (verifySignature_present hook r w sig Hs Hsig Hne).
      assert (5 <= String.length sig) as Hge.
      { destruct sig; simpl in *; [done|lia]. }
      destruct (sliceFrom_Returned sig 5 Hge) as [t ->]. cbv zeta.
      destruct (HmacEqual.Equal _ _); eauto.
Qed.

Lemma C4_witness :
  verifySignature pingHook (pingRequest "sha1" zenBody) (world pingHook zenBody)
  = (Panicked "runtime error: slice bounds out of range",
     withTrace (world pingHook zenBody)
       [LogLine webhooks_DefaultLog Info "Checking secret";
        LogLine webhooks_DefaultLog Debug "X-Hub-Signature:sha1"]).
Proof.
  apply (C4_short_signature_panics pingHook (pingRequest "sha1" zenBody)
           (world pingHook zenBody) "sha1").
  - discriminate.
  - vm_compute. reflexivity.
  - simpl. lia.
Defined.

(** C5, as stated, fails: with a secret configured and no X-Hub-Signature
    header, a request that also lacks the event header is answered with
    400, not 403. *)
Lemma C5_counterexample :
  secret pingHook <> EmptyString /\
  Http.Get (Http.req_Header noHeaders) "X-Hub-Signature" = EmptyString /\
  ParsePayload pingHook noHeaders (world pingHook [])
  = (Returned tt,
     withTrace (world pingHook [])
       [LogLine webhooks_DefaultLog Info "Parsing Payload...";
        HttpError "Missing X-GitHub-Event Header" 400;
        LogLine webhooks_DefaultLog Error "Missing X-GitHub-Event Header"]).
Proof. split; [discriminate|]. split; vm_compute; reflexivity. Qed.

(** C5, amended. Where a secret is configured and the X-Hub-Signature
    header is absent or empty, no handler is called; and when the request
    carries an event header whose token has a registered handler, the
    run fails with the missing-signature error, reported with status
    403. *)
Theorem C5_missing_signature_is_forbidden `{PayloadDecls}
    (hook : Webhook) (r : Http.Request) (w : World) :
  secret hook <> EmptyString ->
  Http.Get (Http.req_Header r) "X-Hub-Signature" = EmptyString ->
  exists d,
    ParsePayload hook r w = (Returned tt, withTrace w (trace w ++ d)) /\
    calls d = [] /\
    forall ev fn,
      result (getGitHubEvent hook r) w = Returned (ev, None) ->
      eventFuncs (pkg_hook w) !! ev = Some fn ->
      responses d = [("Missing X-Hub-Signature required for HMAC verification"%string,
                      Http.StatusForbidden)].
Proof.
  intros Hs Hsig. unfold ParsePayload, result.
  destruct (decide (Http.Get (Http.req_Header r) "X-GitHub-Event" = EmptyString))
    as [He|He].
  { rewrite bind_run, getGitHubEvent_missing by done.
    eexists. split; [finish_M|]. split; [done|].
    intros ev fn Hev. discriminate. }
  rewrite bind_run, (getGitHubEvent_present hook r w _ eq_refl He).
  set (ev := Http.Get (Http.req_Header r) "X-GitHub-Event").
  destruct (eventFuncs (pkg_hook w) !! ev) as [fn|] eqn:Hfn.
  - rewrite bind_run, (getGitHubHandler_registered _ ev fn) by done.
    rewrite bind_run, verifySignature_missing by done.
    eexists. split; [finish_M|]. done.
  - rewrite bind_run, getGitHubHandler_unregistered by done.
    eexists. split; [finish_M|]. split; [done|].
    intros ev' fn' [= <-] Hfn'. congruence.
Qed.

Lemma C5_witness :
  exists d,
    ParsePayload pingHook unsignedPing (world pingHook [])
      = (Returned tt, withTrace (world pingHook []) ([] ++ d)) /\
    calls d = [] /\
    forall ev fn,
      result (getGitHubEvent pingHook unsignedPing) (world pingHook []) = Returned (ev, None) ->
      eventFuncs pingHook !! ev = Some fn ->
      responses d = [("Missing X-Hub-Signature required for HMAC verification"%string,
                      Http.StatusForbidden)].
Proof.
  apply (C5_missing_signature_is_forbidden pingHook unsignedPing (world pingHook [])).
  - discriminate.
  - vm_compute. reflexivity.
Defined.

(** C6. When the registry's secret is empty, signature verification is a
    no-op that succeeds whatever the X-Hub-Signature header holds, also
    when there is none: it returns nil and leaves the response writer and
    the log untouched. *)
Theorem C6_unsecured_registry_accepts_any_signature `{PayloadDecls}
    (hook : Webhook) (r : Http.Request) (w : World) :
  secret hook = EmptyString ->
  verifySignature hook r w = (Returned None, w).
Proof. apply verifySignature_unsecured. Qed.

Lemma C6_witness :
  verifySignature openHook (pingRequest "sha1=0000" zenBody) (world openHook [])
  = (Returned None, world openHook []).
Proof. apply C6_unsecured_registry_accepts_any_signature. reflexivity. Defined.

(** C7. A request whose event token has no registered handler: the
    lookup reports the handler as not found, the run ends after logging
    that error, no handler is called and nothing is written to the
    response. *)
Theorem C7_unregistered_event_not_found `{PayloadDecls}
    (hook : Webhook) (r : Http.Request) (w : World) (ev : Event) :
  Http.Get (Http.req_Header r) "X-GitHub-Event" = ev -> ev <> EmptyString ->
  eventFuncs (pkg_hook w) !! ev = None ->
  let d := [LogLine webhooks_DefaultLog Info "Parsing Payload...";
            LogLine webhooks_DefaultLog Debug ("X-GitHub-Event:" ++ ev);
            LogLine webhooks_DefaultLog Error (notRegistered ev)] in
  getGitHubHandler ev w = (Returned (None, Some (notRegistered ev)), w) /\
  ParsePayload hook r w = (Returned tt, withTrace w (trace w ++ d)) /\
  calls d = [] /\ responses d = [].
Proof.
  intros Hev Hne Hfn d. split; [by apply getGitHubHandler_unregistered|].
  split; [|done]. unfold ParsePayload.
  rewrite bind_run, (getGitHubEvent_present hook r w ev Hev Hne).
  rewrite bind_run, getGitHubHandler_unregistered by done.
  subst d. finish_M.
Qed.

Lemma C7_witness :
  ParsePayload pingHook unsignedPush (world pingHook [])
  = (Returned tt,
     withTrace (world pingHook [])
       [LogLine webhooks_DefaultLog Info "Parsing Payload...";
        LogLine webhooks_DefaultLog Debug "X-GitHub-Event:push";
        LogLine webhooks_DefaultLog Error (notRegistered "push")]).
Proof.
  apply (C7_unregistered_event_not_found pingHook unsignedPush (world pingHook []) "push").
  - vm_compute. reflexivity.
  - discriminate.
  - vm_compute. reflexivity.
Defined.

(** C8. The tokens [installation] and [integration_installation] are
    two labels of one case of the switch: for every body both select the
    struct type InstallationPayload, and the switch does the same under
    either token, namely hand the handler the InstallationPayload decoded
    from that body. *)
Theorem C8_installation_tokens_share_one_case `{PayloadDecls}
    (hook : Webhook) (fn : option ProcessPayloadFunc) (B : bytes) (hd : Http.Header) :
  selectCase switchCases InstallationEvent = Some InstallationPayload /\
  selectCase switchCases IntegrationInstallationEvent = Some InstallationPayload /\
  dispatch hook InstallationEvent fn B hd
    = dispatch hook IntegrationInstallationEvent fn B hd /\
  dispatch hook InstallationEvent fn B hd
    = runProcessPayloadFunc hook fn
        (Iface InstallationPayload (fst (Unmarshal InstallationPayload B))) hd.
Proof.
  split; [reflexivity|]. split; [reflexivity|]. split; [reflexivity|].
  unfold dispatch.
  change (selectCase switchCases InstallationEvent) with (Some InstallationPayload).
  unfold caseBody. by destruct (Unmarshal InstallationPayload B).
Qed.



(** C10. Running the pipeline a second time on the same request, in the
    state the first run left, gives the same outcome and appends the same
    effects, among them the same handler call with the same decoded
    payload: a run leaves the secret, the handler map and the rest of the
    package-level state as it found them, and neither its outcome nor
    what it appends depends on what was logged, written or called
    before. *)
Theorem C10_second_run_repeats_the_first `{PayloadDecls}
    (hook : Webhook) (r : Http.Request) (w : World) :
  exists o d,
    ParsePayload hook r w = (o, withTrace w (trace w ++ d)) /\
    ParsePayload hook r (withTrace w (trace w ++ d))
      = (o, withTrace w ((trace w ++ d) ++ d)) /\
    forall t, ParsePayload hook r (withTrace w t) = (o, withTrace w (t ++ d)).
Proof.
  destruct (appendOnly_run (ParsePayload hook r) w (appendOnly_ParsePayload hook r))
    as (o & d & Hw & Ht).
  exists o, d. split; [done|]. split; [apply Ht|done].
Qed.

(** * Further properties of the pipeline *)

(** ** Every path of a run *)
Section Cases.
Context `{PayloadDecls}.
Implicit Types (hook : Webhook) (r : Http.Request) (w : World).

Lemma appended_run {A} (m : M A) w (o : Exec A) (d : list Effect) :
  m w = (o, withTrace w (trace w ++ d)) -> appended m w = d.
Proof.
  intros Hm. unfold appended. rewrite Hm. cbn [snd trace withTrace].
  apply drop_app_length.
Qed.

Lemma result_run {A} (m : M A) w (o : Exec A) (w' : World) :
  m w = (o, w') -> result m w = o.
Proof. intros Hm. unfold result. by rewrite Hm. Qed.

(** What [verifySignature] returns and what it writes, for every
    registry, request and state. *)
Lemma verifySignature_cases hook r w :
  exists o dv,
    (forall t, verifySignature hook r (withTrace w t) = (o, withTrace w (t ++ dv))) /\
    calls dv = [] /\
    match o with
    | Returned None => responses dv = []
    | Returned (Some e) =>
        responses dv = [(e, Http.StatusForbidden)] /\
        (e = "Missing X-Hub-Signature required for HMAC verification"%string \/
         e = "HMAC verification failed"%string)
    | Panicked msg =>
        responses dv = [] /\ msg = "runtime error: slice bounds out of range"%string
    end.
Proof.
  destruct (decide (secret hook = EmptyString)) as [Hs|Hs].
  { exists (Returned None), []. split; [|done]. intros t.
    rewrite verifySignature_unsecured by done. by rewrite app_nil_r. }
  destruct (decide (Http.Get (Http.req_Header r) "X-Hub-Signature" = EmptyString))
    as [Hsig|Hsig].
  { eexists _, _. split; [intros t; by rewrite verifySignature_missing|].
    split; [done|]. split; [done|]. by left. }
  pose proof (fun t => verifySignature_present hook r (withTrace w t) _ Hs eq_refl Hsig)
    as Hrun.
  cbn [pkg_payload withTrace trace] in Hrun. cbv zeta in Hrun.
  unfold sliceFrom in *.
  destruct (5 <=? String.length (Http.Get (Http.req_Header r) "X-Hub-Signature"))%nat.
  - destruct (HmacEqual.Equal _ _).
    + eexists _, _. split; [exact Hrun|]. done.
    + eexists _, _. split; [exact Hrun|]. split; [done|]. split; [done|]. by right.
  - eexists _, _. split; [exact Hrun|]. done.
Qed.

(** The paths of [ParsePayload], each with what it returns, the handler
    calls it makes and the responses it writes. *)
Lemma ParsePayload_cases hook r w :
  let ev := Http.Get (Http.req_Header r) "X-GitHub-Event" in
  let body := Http.req_Body r in
  exists o d,
    ParsePayload hook r w = (o, withTrace w (trace w ++ d)) /\
    ((ev = EmptyString /\ o = Returned tt /\ calls d = [] /\
      responses d = [("Missing X-GitHub-Event Header"%string, Http.StatusBadRequest)]) \/
     (ev <> EmptyString /\ eventFuncs (pkg_hook w) !! ev = None /\
      o = Returned tt /\ calls d = [] /\ responses d = []) \/
     (exists fn, ev <> EmptyString /\ eventFuncs (pkg_hook w) !! ev = Some fn /\
        ((exists msg, result (verifySignature hook r) w = Panicked msg /\
            o = Panicked msg /\ calls d = [] /\ responses d = []) \/
         (exists e, result (verifySignature hook r) w = Returned (Some e) /\
            o = Returned tt /\ calls d = [] /\
            responses d = [(e, Http.StatusForbidden)] /\
            (e = "Missing X-Hub-Signature required for HMAC verification"%string \/
             e = "HMAC verification failed"%string)) \/
         (result (verifySignature hook r) w = Returned None /\ o = Returned tt /\
            (((Http.readErr body <> None \/ Http.data body = []) /\ calls d = [] /\
              responses d = [("Issue reading Payload"%string,
                              Http.StatusInternalServerError)]) \/
             (Http.readErr body = None /\ Http.data body <> [] /\
              selectCase switchCases ev = None /\ calls d = [] /\ responses d = []) \/
             (exists T, Http.readErr body = None /\ Http.data body <> [] /\
                selectCase switchCases ev = Some T /\
                calls d = [(fn, Iface T (fst (Unmarshal T (Http.data body))),
                            Http.req_Header r)] /\
                responses d = [])))))).
Proof.
  intros ev body. unfold ParsePayload.
  destruct (decide (ev = EmptyString)) as [He|He].
  { rewrite bind_run, getGitHubEvent_missing by done.
    eexists _, _. split; [finish_M|]. left. done. }
  rewrite bind_run, (getGitHubEvent_present hook r w ev eq_refl He).
  destruct (eventFuncs (pkg_hook w) !! ev) as [fn|] eqn:Hfn.
  2:{ rewrite bind_run, getGitHubHandler_unregistered by done.
      eexists _, _. split; [finish_M|]. right; left. done. }
  rewrite bind_run, (getGitHubHandler_registered _ ev fn) by done.
  destruct (verifySignature_cases hook r w) as (ov & dv & Hrun & Hc & Hov).
  assert (result (verifySignature hook r) w = ov) as Hres.
  { apply (result_run _ _ _ (withTrace w (trace w ++ dv))).
    rewrite <- (withTrace_id w) at 1. apply Hrun. }
  rewrite bind_run, Hrun.
  destruct ov as [[e|]|msg].
  - destruct Hov as [Hr He'].
    eexists _, _. split; [finish_M|]. right; right. exists fn. do 2 (split; [done|]).
    right; left. exists e. split; [done|]. split; [done|].
    rewrite !calls_app, !responses_app, Hc, Hr. done.
  - destruct (Http.readErr body) as [e|] eqn:Herr.
    { rewrite bind_run, readPayload_failed by (left; fold body; by rewrite Herr).
      eexists _, _. split; [finish_M|]. right; right. exists fn. do 2 (split; [done|]).
      right; right. split; [done|]. split; [done|]. left. split; [by left|].
      rewrite !calls_app, !responses_app, Hc, Hov. done. }
    destruct (Http.data body) as [|b bs] eqn:Hd.
    { rewrite bind_run, readPayload_failed by (right; done).
      eexists _, _. split; [finish_M|]. right; right. exists fn. do 2 (split; [done|]).
      right; right. split; [done|]. split; [done|]. left. split; [by right|].
      rewrite !calls_app, !responses_app, Hc, Hov. done. }
    rewrite bind_run, readPayload_read by (fold body; congruence).
    fold body. rewrite Hd. cbn [trace withTrace].
    destruct (selectCase switchCases ev) as [T|] eqn:Hsel.
    + rewrite (dispatch_known hook ev T fn) by done.
      eexists _, _. split; [finish_M|].
      right; right. exists fn. do 2 (split; [done|]).
      right; right. split; [done|]. split; [done|]. right; right.
      exists T. do 3 (split; [done|]).
      rewrite !calls_app, !responses_app, Hc, Hov. done.
    + unfold dispatch. rewrite Hsel. eexists _, _. split; [finish_M|]. right; right. exists fn. do 2 (split; [done|]).
      right; right. split; [done|]. split; [done|]. right; left.
      do 3 (split; [done|]).
      rewrite !calls_app, !responses_app, Hc, Hov. done.
  - destruct Hov as [Hr _].
    eexists _, _. split; [finish_M|]. right; right. exists fn. do 2 (split; [done|]).
    left. exists msg. split; [done|]. split; [done|].
    rewrite !calls_app, !responses_app, Hc, Hr. done.
Qed.
End Cases.

(** ** Strings and slices *)

Lemma string_length_app (s t : string) :
  String.length (s ++ t) = String.length s + String.length t.
Proof. induction s as [|c s IH]; simpl; [done|]. by rewrite IH. Qed.

Lemma substring_after_prefix (p t : string) :
  String.substring (String.length p) (String.length t) (p ++ t) = t.
Proof. induction p as [|c p IH]; simpl; [apply substring_all|apply IH]. Qed.

Lemma substring_split (s : string) (n : nat) :
  n <= String.length s ->
  String.length (String.substring 0 n s) = n /\
  s = (String.substring 0 n s ++ String.substring n (String.length s - n) s)%string.
Proof.
  revert n. induction s as [|c s IH]; intros [|n] Hn; simpl in *; try lia.
  - done.
  - split; [done|]. by rewrite substring_all.
  - destruct (IH n) as [Hl Hs]; [lia|]. split; [by rewrite Hl|].
    transitivity (String c (String.substring 0 n s ++
                            String.substring n (String.length s - n) s));
      [by rewrite <- Hs|reflexivity].
Qed.

(** [s[n:]] returns [t] exactly when [s] is [t] behind [n] characters. *)
Lemma sliceFrom_Returned_iff (s : string) (n : nat) (t : string) :
  sliceFrom s n = Returned t <->
  exists p, String.length p = n /\ s = (p ++ t)%string.
Proof.
  unfold sliceFrom. split.
  - destruct (n <=? String.length s)%nat eqn:Hn; [|done]. intros [= <-].
    apply Nat.leb_le in Hn. destruct (substring_split s n Hn) as [Hl Hs]. eauto.
  - intros (p & <- & ->). rewrite string_length_app.
    assert ((String.length p <=? String.length p + String.length t)%nat = true) as ->
      by (apply Nat.leb_le; lia).
    replace (String.length p + String.length t - String.length p)
      with (String.length t) by lia.
    by rewrite substring_after_prefix.
Qed.

Lemma hex_EncodeToString_length (x : bytes) :
  String.length (Hex.EncodeToString x) = 2 * List.length x.
Proof. induction x as [|a x IH]; simpl; [done|]. rewrite IH. lia. Qed.


(** ** Verdicts of [verifySignature] *)
Section Verdicts.
Context `{PayloadDecls}.
Implicit Types (hook : Webhook) (r : Http.Request) (w : World).

Lemma verifySignature_accepts_iff hook r w :
  secret hook <> EmptyString ->
  result (verifySignature hook r) w = Returned None <->
  sliceFrom (Http.Get (Http.req_Header r) "X-Hub-Signature") 5
  = Returned (Hex.EncodeToString
                (Hmac.Sum (bytes_of_string (secret hook)) (pkg_payload w))).
Proof.
  intros Hs. unfold result.
  destruct (decide (Http.Get (Http.req_Header r) "X-Hub-Signature" = EmptyString))
    as [Hsig|Hsig].
  { rewrite verifySignature_missing by done. rewrite Hsig. split; discriminate. }
  rewrite (verifySignature_present hook r w _ Hs eq_refl Hsig). cbv zeta.
  destruct (sliceFrom _ 5) as [presented|msg]; [|split; discriminate].
  destruct (HmacEqual.Equal _ _) eqn:Hcmp; cbn [fst].
  - apply hmac_Equal_spec, bytes_of_string_inj in Hcmp. by rewrite Hcmp.
  - split; [discriminate|]. intros [= Heq]. rewrite Heq in Hcmp.
    rewrite (proj2 (hmac_Equal_spec _ _) eq_refl) in Hcmp. discriminate.
Qed.

End Verdicts.

(** X1. A request without an X-GitHub-Event header (or with an empty
    one) is answered with 400 and the missing-header message, whatever
    the registry, the secret, the signature header and the body are: no
    handler is looked up or called and nothing else is written. *)
Theorem X1_missing_event_header_is_bad_request `{PayloadDecls}
    (hook : Webhook) (r : Http.Request) (w : World) :
  Http.Get (Http.req_Header r) "X-GitHub-Event" = EmptyString ->
  let d := [LogLine webhooks_DefaultLog Info "Parsing Payload...";
            HttpError "Missing X-GitHub-Event Header" Http.StatusBadRequest;
            LogLine webhooks_DefaultLog Error "Missing X-GitHub-Event Header"] in
  ParsePayload hook r w = (Returned tt, withTrace w (trace w ++ d)) /\
  calls d = [] /\
  responses d = [("Missing X-GitHub-Event Header"%string, Http.StatusBadRequest)].
Proof.
  intros Hev d. split; [|done]. unfold ParsePayload.
  rewrite bind_run, getGitHubEvent_missing by done. subst d. finish_M.
Qed.

Lemma X1_witness :
  ParsePayload pingHook noHeaders (world pingHook [])
  = (Returned tt,
     withTrace (world pingHook [])
       [LogLine webhooks_DefaultLog Info "Parsing Payload...";
        HttpError "Missing X-GitHub-Event Header" Http.StatusBadRequest;
        LogLine webhooks_DefaultLog Error "Missing X-GitHub-Event Header"]).
Proof.
  apply (X1_missing_event_header_is_bad_request pingHook noHeaders (world pingHook [])).
  vm_compute. reflexivity.
Defined.

(** X2. When the request has a registered token and passed signature
    verification, a body that cannot be read or is empty is answered
    with 500 and the read-error message; no handler is called, also
    when bytes were read before the error. *)
Theorem X2_unreadable_body_is_server_error `{PayloadDecls}
    (hook : Webhook) (r : Http.Request) (w : World) (fn : ProcessPayloadFunc) :
  Http.Get (Http.req_Header r) "X-GitHub-Event" <> EmptyString ->
  eventFuncs (pkg_hook w) !! Http.Get (Http.req_Header r) "X-GitHub-Event" = Some fn ->
  result (verifySignature hook r) w = Returned None ->
  Http.readErr (Http.req_Body r) <> None \/ Http.data (Http.req_Body r) = [] ->
  exists d,
    ParsePayload hook r w = (Returned tt, withTrace w (trace w ++ d)) /\
    calls d = [] /\
    responses d = [("Issue reading Payload"%string, Http.StatusInternalServerError)].
Proof.
  intros Hev Hfn Hver Hbad.
  destruct (ParsePayload_cases hook r w) as (o & d & Hrun & Hcases).
  destruct Hcases as [(He & _)|[(_ & Hnone & _)|(fn' & _ & _ & Hcases)]];
    [done|congruence|].
  destruct Hcases as [(msg & Hp & _)|[(e & He & _)|(_ & -> & Hcases)]];
    [congruence|congruence|].
  destruct Hcases as [(_ & Hc & Hr)|[(Herr & Hd & _)|(T & Herr & Hd & _)]].
  - eauto.
  - by destruct Hbad.
  - by destruct Hbad.
Qed.

Lemma X2_witness :
  exists d,
    ParsePayload openHook brokenBodyPing (world openHook [])
      = (Returned tt, withTrace (world openHook []) ([] ++ d)) /\
    calls d = [] /\
    responses d = [("Issue reading Payload"%string, Http.StatusInternalServerError)].
Proof.
  apply (X2_unreadable_body_is_server_error openHook brokenBodyPing (world openHook []) 7).
  - vm_compute. discriminate.
  - vm_compute. reflexivity.
  - vm_compute. reflexivity.
  - left. discriminate.
Defined.

(** X3. A request whose token is in the vocabulary and has a registered
    handler, that passed signature verification and whose body was read
    and is not empty: the handler registered for the token is called
    exactly once, with the struct of the token's case decoded from the
    body and with the request's own header map, and no error response is
    written. When the body is valid JSON the struct is the one the
    decoder populates from it. *)
Theorem X3_vocabulary_event_is_dispatched_once `{PayloadDecls}
    (hook : Webhook) (r : Http.Request) (w : World)
    (fn : ProcessPayloadFunc) (T : PayloadType) :
  eventFuncs (pkg_hook w) !! Http.Get (Http.req_Header r) "X-GitHub-Event" = Some fn ->
  selectCase switchCases (Http.Get (Http.req_Header r) "X-GitHub-Event") = Some T ->
  result (verifySignature hook r) w = Returned None ->
  Http.readErr (Http.req_Body r) = None ->
  Http.data (Http.req_Body r) <> [] ->
  exists d,
    ParsePayload hook r w = (Returned tt, withTrace w (trace w ++ d)) /\
    calls d = [(fn, Iface T (fst (Unmarshal T (Http.data (Http.req_Body r)))),
                Http.req_Header r)] /\
    responses d = [] /\
    (Json.Valid (Http.data (Http.req_Body r)) = true ->
     fst (Unmarshal T (Http.data (Http.req_Body r)))
     = fst (populate T (Http.data (Http.req_Body r)))).
Proof.
  intros Hfn Hsel Hver Herr Hdata.
  assert (Http.Get (Http.req_Header r) "X-GitHub-Event" <> EmptyString) as Hne.
  { intros Hempty. rewrite Hempty in Hsel. discriminate. }
  destruct (ParsePayload_to_switch hook r w _ fn eq_refl Hne Hfn Hver Herr Hdata)
    as (pre & Hc & Hr & Hrun).
  eexists. split; [|split; [|split]].
  - rewrite Hrun, (dispatch_known hook _ T) by done.
    cbn [trace withTrace]. rewrite <- app_assoc. reflexivity.
  - by rewrite calls_app, Hc.
  - by rewrite responses_app, Hr.
  - unfold Json.Valid, Unmarshal. by destruct (Json.checkValid _).
Qed.

Lemma X3_witness :
  exists d,
    ParsePayload openHook unsignedPing (world openHook [])
      = (Returned tt, withTrace (world openHook []) ([] ++ d)) /\
    calls d = [(7, Iface PingPayload (fst (Unmarshal PingPayload zenBody)),
                Http.req_Header unsignedPing)] /\
    responses d = [] /\
    (Json.Valid zenBody = true ->
     fst (Unmarshal PingPayload zenBody) = fst (populate PingPayload zenBody)).
Proof.
  apply (X3_vocabulary_event_is_dispatched_once openHook unsignedPing
           (world openHook []) 7 PingPayload).
  - vm_compute. reflexivity.
  - vm_compute. reflexivity.
  - vm_compute. reflexivity.
  - reflexivity.
  - discriminate.
Defined.

(** X4. No run does more than one thing to its caller: it writes at most
    one error response or calls at most one handler, never both, and a
    response is one of four fixed pairs of message and status (400, 403
    with one of two messages, 500). *)
Theorem X4_at_most_one_response_or_call `{PayloadDecls}
    (hook : Webhook) (r : Http.Request) (w : World) :
  exists o d,
    ParsePayload hook r w = (o, withTrace w (trace w ++ d)) /\
    List.length (calls d) + List.length (responses d) <= 1 /\
    forall resp, resp ∈ responses d ->
      resp ∈ [("Missing X-GitHub-Event Header"%string, Http.StatusBadRequest);
              ("Missing X-Hub-Signature required for HMAC verification"%string,
               Http.StatusForbidden);
              ("HMAC verification failed"%string, Http.StatusForbidden);
              ("Issue reading Payload"%string, Http.StatusInternalServerError)].
Proof.
  destruct (ParsePayload_cases hook r w) as (o & d & Hrun & Hcases).
  exists o, d. split; [done|].
  destruct Hcases as [(_ & _ & -> & ->)|[(_ & _ & _ & -> & ->)|(fn & _ & _ & Hcases)]].
  { split; [simpl; lia|]. intros resp ->%list_elem_of_singleton. apply list_elem_of_here. }
  { split; [simpl; lia|]. intros resp []%elem_of_nil. }
  destruct Hcases as [(msg & _ & _ & -> & ->)|[(e & _ & _ & -> & -> & He)|(_ & _ & Hcases)]].
  { split; [simpl; lia|]. intros resp []%elem_of_nil. }
  { split; [simpl; lia|]. intros resp ->%list_elem_of_singleton.
    destruct He as [->| ->].
    - apply list_elem_of_further, list_elem_of_here.
    - do 2 apply list_elem_of_further. apply list_elem_of_here. }
  destruct Hcases as [(_ & -> & ->)|[(_ & _ & _ & -> & ->)|(T & _ & _ & _ & -> & ->)]].
  - split; [simpl; lia|]. intros resp ->%list_elem_of_singleton.
    do 3 apply list_elem_of_further. apply list_elem_of_here.
  - split; [simpl; lia|]. intros resp []%elem_of_nil.
  - split; [simpl; lia|]. intros resp []%elem_of_nil.
Qed.

(** X5. A handler is called only after every check has passed: if a run
    calls a handler at all, then the event header is present, the handler
    called is the one registered for its token, the token is a label of
    the switch, signature verification returned nil, the body was read
    without error and is not empty; the call is the only one, its
    argument has the struct type of the token's case, and no response
    was written. *)
Theorem X5_handler_call_means_all_checks_passed `{PayloadDecls}
    (hook : Webhook) (r : Http.Request) (w : World) :
  calls (appended (ParsePayload hook r) w) <> [] ->
  let ev := Http.Get (Http.req_Header r) "X-GitHub-Event" in
  exists fn T,
    ev <> EmptyString /\
    eventFuncs (pkg_hook w) !! ev = Some fn /\
    selectCase switchCases ev = Some T /\
    result (verifySignature hook r) w = Returned None /\
    Http.readErr (Http.req_Body r) = None /\
    Http.data (Http.req_Body r) <> [] /\
    result (ParsePayload hook r) w = Returned tt /\
    calls (appended (ParsePayload hook r) w)
      = [(fn, Iface T (fst (Unmarshal T (Http.data (Http.req_Body r)))),
          Http.req_Header r)] /\
    responses (appended (ParsePayload hook r) w) = [].
Proof.
  intros Hcalls ev.
  destruct (ParsePayload_cases hook r w) as (o & d & Hrun & Hcases).
  rewrite (appended_run _ _ _ _ Hrun) in *. rewrite (result_run _ _ _ _ Hrun).
  destruct Hcases as [(_ & _ & Hc & _)|[(_ & _ & _ & Hc & _)|(fn & Hne & Hfn & Hcases)]];
    [done|done|].
  destruct Hcases as [(msg & _ & _ & Hc & _)|[(e & _ & _ & Hc & _)|(Hver & -> & Hcases)]];
    [done|done|].
  destruct Hcases as [(_ & Hc & _)|[(_ & _ & _ & Hc & _)|(T & Herr & Hd & Hsel & Hc & Hr)]];
    [done|done|].
  exists fn, T. done.
Qed.

Lemma X5_witness :
  exists fn T,
    Http.Get (Http.req_Header unsignedPing) "X-GitHub-Event" <> EmptyString /\
    eventFuncs openHook !! Http.Get (Http.req_Header unsignedPing) "X-GitHub-Event"
      = Some fn /\
    selectCase switchCases (Http.Get (Http.req_Header unsignedPing) "X-GitHub-Event")
      = Some T /\
    result (verifySignature openHook unsignedPing) (world openHook []) = Returned None /\
    Http.readErr (Http.req_Body unsignedPing) = None /\
    Http.data (Http.req_Body unsignedPing) <> [] /\
    result (ParsePayload openHook unsignedPing) (world openHook []) = Returned tt /\
    calls (appended (ParsePayload openHook unsignedPing) (world openHook []))
      = [(fn, Iface T (fst (Unmarshal T (Http.data (Http.req_Body unsignedPing)))),
          Http.req_Header unsignedPing)] /\
    responses (appended (ParsePayload openHook unsignedPing) (world openHook [])) = [].
Proof.
  apply (X5_handler_call_means_all_checks_passed openHook unsignedPing (world openHook [])).
  vm_compute. discriminate.
Defined.

(** X6. With a secret configured, [verifySignature] returns nil exactly
    for the header values made of any five characters followed by the
    lower-case hex HMAC-SHA1 of the bytes it hashes: the first five
    characters are cut off without being looked at, so the algorithm
    name is not checked. A value that passes has 45 characters. *)
Theorem X6_accepted_signature_values `{PayloadDecls}
    (hook : Webhook) (r : Http.Request) (w : World) :
  secret hook <> EmptyString ->
  let sig := Http.Get (Http.req_Header r) "X-Hub-Signature" in
  let digest := Hex.EncodeToString
                  (Hmac.Sum (bytes_of_string (secret hook)) (pkg_payload w)) in
  (result (verifySignature hook r) w = Returned None <->
   exists prefix, String.length prefix = 5 /\ sig = (prefix ++ digest)%string) /\
  (result (verifySignature hook r) w = Returned None -> String.length sig = 45).
Proof.
  intros Hs sig digest.
  pose proof (verifySignature_accepts_iff hook r w Hs) as Hiff.
  fold sig digest in Hiff. rewrite sliceFrom_Returned_iff in Hiff.
  split; [exact Hiff|].
  intros (prefix & Hlen & ->)%Hiff.
  rewrite string_length_app, Hlen. unfold digest.
  by rewrite hex_EncodeToString_length, hmac_Sum_length.
Qed.

Lemma X6_witness :
  exists prefix,
    String.length prefix = 5 /\
    Http.Get (Http.req_Header signedPing) "X-Hub-Signature"
    = (prefix ++ Hex.EncodeToString
                   (Hmac.Sum (bytes_of_string (secret pingHook)) zenBody))%string.
Proof.
  assert (secret pingHook <> EmptyString) as Hs by discriminate.
  apply (proj1 (proj1 (X6_accepted_signature_values pingHook signedPing
                         (world pingHook zenBody) Hs))).
  vm_compute. reflexivity.
Defined.

(** X7. [verifySignature] returns an error exactly when it has written
    one 403 response carrying that error's message, which is one of two;
    when it returns nil or panics it has written no response; it never
    calls a handler and leaves the package-level state as it was. *)
Theorem X7_verifySignature_answers_what_it_returns `{PayloadDecls}
    (hook : Webhook) (r : Http.Request) (w : World) :
  exists o dv,
    verifySignature hook r w = (o, withTrace w (trace w ++ dv)) /\
    calls dv = [] /\
    match o with
    | Returned None => responses dv = []
    | Returned (Some e) =>
        responses dv = [(e, Http.StatusForbidden)] /\
        (e = "Missing X-Hub-Signature required for HMAC verification"%string \/
         e = "HMAC verification failed"%string)
    | Panicked msg =>
        responses dv = [] /\ msg = "runtime error: slice bounds out of range"%string
    end.
Proof.
  destruct (verifySignature_cases hook r w) as (o & dv & Hrun & Hrest).
  exists o, dv. split; [|done].
  rewrite <- (withTrace_id w) at 1. apply Hrun.
Qed.



(** ** The labels of the switch *)

Lemma vocabulary_NoDup : NoDup vocabulary.
Proof. apply (bool_decide_unpack _). vm_compute. exact I. Qed.

Lemma selectCase_Some_vocabulary (ev : Event) (T : PayloadType) :
  selectCase switchCases ev = Some T -> ev ∈ vocabulary.
Proof.
  intros Hsel. destruct (decide (ev ∈ vocabulary)) as [|Hout]; [done|].
  rewrite selectCase_outside_vocabulary in Hsel by done. discriminate.
Qed.

(** Two tokens of the vocabulary with the same case are the same token
    or the two labels of the InstallationPayload case. *)
Lemma same_case_in_vocabulary :
  Forall (fun ev1 => Forall (fun ev2 =>
    selectCase switchCases ev1 = selectCase switchCases ev2 ->
    ev1 = ev2 \/
    (ev1 ∈ [InstallationEvent; IntegrationInstallationEvent] /\
     ev2 ∈ [InstallationEvent; IntegrationInstallationEvent])) vocabulary) vocabulary.
Proof. apply (bool_decide_unpack _). vm_compute. exact I. Qed.

(** X9. The switch of [ParsePayload] has a case for a token exactly when
    the token is one of the 33 declared event constants, and these are
    pairwise different: no constant is left without a case, and no case
    label is outside the constants. *)
Theorem X9_switch_covers_exactly_the_vocabulary :
  List.length vocabulary = 33 /\ NoDup vocabulary /\
  forall ev : Event, is_Some (selectCase switchCases ev) <-> ev ∈ vocabulary.
Proof.
  split; [reflexivity|]. split; [apply vocabulary_NoDup|].
  intros ev. split.
  - intros [T HT]. by apply (selectCase_Some_vocabulary ev T).
  - intros Hev. destruct (selectCase_inside_vocabulary ev Hev) as [T HT]. by exists T.
Qed.

(** X10. The struct type handed to a handler names the token, up to the
    one alias: two tokens that select the same case of the switch are
    equal, or they are [installation] and [integration_installation]
    and the case is the one of InstallationPayload. *)
Theorem X10_case_determines_the_token (ev1 ev2 : Event) (T : PayloadType) :
  selectCase switchCases ev1 = Some T ->
  selectCase switchCases ev2 = Some T ->
  ev1 = ev2 \/
  (T = InstallationPayload /\
   ev1 ∈ [InstallationEvent; IntegrationInstallationEvent] /\
   ev2 ∈ [InstallationEvent; IntegrationInstallationEvent]).
Proof.
  intros H1 H2.
  pose proof (selectCase_Some_vocabulary _ _ H1) as Hv1.
  pose proof (selectCase_Some_vocabulary _ _ H2) as Hv2.
  pose proof same_case_in_vocabulary as Hall.
  rewrite Forall_forall in Hall. specialize (Hall ev1 Hv1).
  rewrite Forall_forall in Hall. specialize (Hall ev2 Hv2).
  destruct Hall as [Heq|[Ha1 Ha2]]; [congruence|by left|].
  right. split; [|done].
  apply elem_of_cons in Ha1 as [->|Ha1].
  - vm_compute in H1. congruence.
  - apply list_elem_of_singleton in Ha1 as ->. vm_compute in H1. congruence.
Qed.

Lemma X10_witness :
  InstallationEvent = IntegrationInstallationEvent \/
  (InstallationPayload = InstallationPayload /\
   InstallationEvent ∈ [InstallationEvent; IntegrationInstallationEvent] /\
   IntegrationInstallationEvent ∈ [InstallationEvent; IntegrationInstallationEvent]).
Proof.
  apply (X10_case_determines_the_token InstallationEvent IntegrationInstallationEvent
           InstallationPayload); reflexivity.
Defined.

(** ** The secret and the trace *)
Section Secret.
Context `{PayloadDecls}.

Lemma verifySignature_same_verdict (hook1 hook2 : Webhook) (r : Http.Request)
    (w : World) :
  secret hook1 <> EmptyString -> secret hook2 <> EmptyString ->
  result (verifySignature hook1 r) w = result (verifySignature hook2 r) w ->
  forall t, verifySignature hook1 r (withTrace w t) = verifySignature hook2 r (withTrace w t).
Proof.
  intros Hs1 Hs2 Hres t. unfold result in Hres.
  destruct (decide (Http.Get (Http.req_Header r) "X-Hub-Signature" = EmptyString))
    as [Hsig|Hsig].
  { by rewrite !verifySignature_missing. }
  rewrite (verifySignature_present hook1 r _ _ Hs1 eq_refl Hsig).
  rewrite (verifySignature_present hook2 r _ _ Hs2 eq_refl Hsig).
  rewrite (verifySignature_present hook1 r _ _ Hs1 eq_refl Hsig) in Hres.
  rewrite (verifySignature_present hook2 r _ _ Hs2 eq_refl Hsig) in Hres.
  cbv zeta in *. cbn [pkg_payload withTrace trace] in *.
  destruct (sliceFrom _ 5) as [presented|msg]; [|done].
  destruct (HmacEqual.Equal _ _), (HmacEqual.Equal _ _); (done || discriminate).
Qed.
End Secret.

(** X11. The secret reaches neither the log nor the response nor the
    handler: two registries with different non-empty secrets, for which
    signature verification of a request gives the same verdict, run the
    request to the same outcome with the same log lines, the same
    response and the same handler call. *)
Theorem X11_secret_stays_out_of_the_trace `{PayloadDecls}
    (hook1 hook2 : Webhook) (r : Http.Request) (w : World) :
  secret hook1 <> EmptyString -> secret hook2 <> EmptyString ->
  result (verifySignature hook1 r) w = result (verifySignature hook2 r) w ->
  ParsePayload hook1 r w = ParsePayload hook2 r w.
Proof.
  intros Hs1 Hs2 Hres. unfold ParsePayload.
  change (getGitHubEvent hook1 r) with (getGitHubEvent hook2 r).
  destruct (appendOnly_run _ w (appendOnly_getGitHubEvent hook2 r))
    as (o1 & d1 & Hrun1 & _).
  rewrite !bind_run, Hrun1. destruct o1 as [[ev [e|]]|msg]; [done| |done].
  destruct (appendOnly_run _ (withTrace w (trace w ++ d1)) (appendOnly_getGitHubHandler ev))
    as (o2 & d2 & Hrun2 & _).
  rewrite !bind_run, Hrun2. destruct o2 as [[fn [e|]]|msg]; [done| |done].
  rewrite withTrace_twice.
  rewrite !bind_run, (verifySignature_same_verdict hook1 hook2 r w Hs1 Hs2 Hres).
  reflexivity.
Qed.

Lemma X11_witness :
  ParsePayload pingHook unsignedPing (world pingHook [])
  = ParsePayload otherHook unsignedPing (world pingHook []).
Proof.
  apply X11_secret_stays_out_of_the_trace.
  - discriminate.
  - discriminate.
  - vm_compute. reflexivity.
Defined.
